(** * Form/Host synchronisation of the Action App

    A shallow embedding of the [useActionContext] hook, of the SDK module
    [lib/uipath.ts] it drives, and of the numeric field control, followed by
    the properties of the synchronisation protocol.

    Conventions of the embedding.
    - A JavaScript object used as a record of fields ([ActionFormData],
      [Partial<ActionFormData>]) is a finite map from property names to
      values; the insertion order of properties is not modelled.
    - An optional property of the host envelope is an [option]: [None] stands
      for a property that is absent, [undefined] or [null].
    - Calls into the external SDK ([sdk.taskEvents.*]) may throw.  Whether a
      given call throws is decided by the host, so every operation takes the
      host's behaviour as an argument and the development quantifies over it.
    - Every React state setter records the view the hook would return right
      after it, so the states an observer could read between two setter calls
      are explicit.  (With batched updates an observer reads fewer of them,
      never others.)
    - React is modelled as it runs in production: a state updater is called
      once.
    - A callback that closes over state ([completeTask]) takes the state of
      the render it was created in as an argument.  The events of a session
      are separate tasks of the event loop with a render between them, so
      an operation that is an event of its own gets the current state
      there; a handler that calls several operations in one task passes the
      same render to all of them. *)

From Stdlib Require Import ZArith NArith List String Ascii Bool Lia.
From stdpp Require Import gmap strings list fin_maps.

Local Open Scope string_scope.

(** ** JavaScript values *)

(** A JavaScript number, that is a binary64: the value of [Finite neg m e]
    is [(-1)^neg * m * 2^e].  The numbers built below have an odd mantissa,
    or the mantissa and the exponent 0, so that a number has one
    representation. *)
Inductive JsNumber : Type :=
| NaN
| Infinity (negative : bool)
| Finite (negative : bool) (mantissa : N) (exponent : Z).

#[local] Unset Elimination Schemes.
(** The values a form field can hold: those of the schema's types (string,
    number, integer, boolean, date as a string, lists of them), [undefined]
    and [null], and nested plain objects.  All of them are accepted by
    [JSON.stringify]. *)
Inductive JsValue : Type :=
| JUndefined
| JNull
| JBoolean (b : bool)
| JNumber (n : JsNumber)
| JString (s : string)
| JArray (items : list JsValue)
| JObject (props : list (string * JsValue)).
#[local] Set Elimination Schemes.

(** [Number.isInteger]: with an odd mantissa the value is whole exactly when
    the exponent is not negative. *)
Definition isWhole (n : JsNumber) : bool :=
  match n with
  | Finite _ m e => (m =? 0)%N || (0 <=? e)%Z
  | _ => false
  end.

(** ** Rounding to binary64 *)

Module Binary64.

(** [a / b] rounded to the nearest integer, ties to the even one. *)
Definition roundHalfEven (a b : N) : N :=
  let q := (a / b)%N in
  let r := (a mod b)%N in
  if (2 * r <? b)%N then q
  else if (b <? 2 * r)%N then (q + 1)%N
  else if N.even q then q else (q + 1)%N.

(** [floor (log2 (num / den))] for positive [num] and [den]. *)
Definition floorLog2 (num den : N) : Z :=
  let k := (Z.of_N (N.log2 num) - Z.of_N (N.log2 den))%Z in
  let below :=
    if (0 <=? k)%Z then (num <? den * 2 ^ Z.to_N k)%N
    else (num * 2 ^ Z.to_N (- k) <? den)%N in
  if below then (k - 1)%Z else k.

(** [m * 2^e] with the factors of two moved from [m] into the exponent. *)
Fixpoint oddPart (m : positive) (e : Z) : positive * Z :=
  match m with
  | xO m' => oddPart m' (e + 1)%Z
  | _ => (m, e)
  end.

Definition finite (negative : bool) (m : N) (e : Z) : JsNumber :=
  match m with
  | N0 => Finite negative 0 0
  | Npos p => let '(p', e') := oddPart p e in Finite negative (Npos p') e'
  end.

(** The binary64 nearest to [num / den] ([den] positive), ties to even: 53
    bits of mantissa, no exponent below -1074, and infinity from 2^1024
    on. *)
Definition ofRatio (negative : bool) (num den : N) : JsNumber :=
  if (num =? 0)%N then Finite negative 0 0
  else
    let k := floorLog2 num den in
    let p := Z.max (k - 52) (-1074) in
    let m :=
      if (0 <=? p)%Z then roundHalfEven num (den * 2 ^ Z.to_N p)
      else roundHalfEven (num * 2 ^ Z.to_N (- p)) den in
    if (971 <? p)%Z || ((p =? 971)%Z && (m =? 2 ^ 53)%N) then Infinity negative
    else finite negative m p.

(** The binary64 nearest to [c * 10^e]. *)
Definition ofDecimal (negative : bool) (c : N) (e : Z) : JsNumber :=
  if (0 <=? e)%Z then ofRatio negative (c * 10 ^ Z.to_N e) 1
  else ofRatio negative c (10 ^ Z.to_N (- e)).

End Binary64.

(** ** [parseInt(val, 10)] and [parseFloat(val)] *)

(** A string is the sequence of bytes of its UTF-8 encoding.  A numeral is
    rounded to the nearest binary64 whatever its length, as the engines do;
    ECMAScript fixes the result only up to 20 significant digits. *)
Module Parse.

(** The white space and line terminators of ASCII: TAB, LF, VT, FF, CR,
    SP. *)
Definition isStrWhiteSpaceChar (c : ascii) : bool :=
  let n := N_of_ascii c in
  ((9 <=? n) && (n <=? 13) || (n =? 32))%N.

(** White space and line terminators outside ASCII, by the bytes of their
    encoding: U+00A0 in two bytes; U+1680, U+2000 to U+200A, U+2028, U+2029,
    U+202F, U+205F, U+3000 and U+FEFF in three. *)
Definition isWhiteSpace2 (c1 c2 : ascii) : bool :=
  ((N_of_ascii c1 =? 194) && (N_of_ascii c2 =? 160))%N.

Definition isWhiteSpace3 (c1 c2 c3 : ascii) : bool :=
  let '(n1, n2, n3) := (N_of_ascii c1, N_of_ascii c2, N_of_ascii c3) in
  ((n1 =? 225) && (n2 =? 154) && (n3 =? 128)
   || (n1 =? 226) && (n2 =? 128)
      && ((128 <=? n3) && (n3 <=? 138) || (n3 =? 168) || (n3 =? 169) || (n3 =? 175))
   || (n1 =? 226) && (n2 =? 129) && (n3 =? 159)
   || (n1 =? 227) && (n2 =? 128) && (n3 =? 128)
   || (n1 =? 239) && (n2 =? 187) && (n3 =? 191))%N.

(** Skips the leading white space and line terminators, as [parseInt] and
    [parseFloat] do before they read. *)
Fixpoint skipWhiteSpace (s : string) : string :=
  match s with
  | String c1 rest1 =>
      if isStrWhiteSpaceChar c1 then skipWhiteSpace rest1
      else
        match rest1 with
        | String c2 rest2 =>
            if isWhiteSpace2 c1 c2 then skipWhiteSpace rest2
            else
              match rest2 with
              | String c3 rest3 =>
                  if isWhiteSpace3 c1 c2 c3 then skipWhiteSpace rest3 else s
              | EmptyString => s
              end
        | EmptyString => s
        end
  | EmptyString => s
  end.

Definition digitValue (c : ascii) : option N :=
  let n := N_of_ascii c in
  if ((48 <=? n) && (n <=? 57))%N then Some (n - 48)%N else None.

(** Reads the longest prefix of decimal digits, continuing the numeral
    [acc] that already has [count] digits; returns the numeral, its number
    of digits and the unread rest. *)
Fixpoint takeDigits (s : string) (acc : N) (count : nat) : N * nat * string :=
  match s with
  | String c rest =>
      match digitValue c with
      | Some d => takeDigits rest (10 * acc + d)%N (S count)
      | None => (acc, count, s)
      end
  | EmptyString => (acc, count, s)
  end.

(** An optional leading sign. *)
Definition takeSign (s : string) : bool * string :=
  match s with
  | String "-"%char rest => (true, rest)
  | String "+"%char rest => (false, rest)
  | _ => (false, s)
  end.

(** [parseInt(val, 10)]: the leading digits, as a number. *)
Definition parseInt (val : string) : JsNumber :=
  let '(neg, body) := takeSign (skipWhiteSpace val) in
  match takeDigits body 0%N 0 with
  | (_, O, _) => NaN
  | (v, S _, _) => Binary64.ofDecimal neg v 0
  end.

(** The exponent part [e], [e+] or [e-] followed by at least one digit;
    anything else is not part of the numeral and contributes 0. *)
Definition takeExponent (s : string) : Z :=
  match s with
  | String c rest =>
      if (c =? "e")%char || (c =? "E")%char then
        let '(neg, ds) := takeSign rest in
        match takeDigits ds 0%N 0 with
        | (_, O, _) => 0%Z
        | (v, S _, _) => if neg then (- Z.of_N v)%Z else Z.of_N v
        end
      else 0%Z
  | EmptyString => 0%Z
  end.

Definition startsWithInfinity (s : string) : bool :=
  String.prefix "Infinity" s.

Definition parseFloat (val : string) : JsNumber :=
  let '(neg, body) := takeSign (skipWhiteSpace val) in
  if startsWithInfinity body then Infinity neg
  else
    let '(iv, ni, r1) := takeDigits body 0%N 0 in
    let '(fv, nall, r2) :=
      match r1 with
      | String "."%char frac => takeDigits frac iv ni
      | _ => (iv, ni, r1)
      end in
    match nall with
    | O => NaN
    | S _ => Binary64.ofDecimal neg fv (takeExponent r2 - Z.of_nat (nall - ni))
    end.

End Parse.

(** ** The numeric field control *)

(** The [onChange] handler of [NumberControl]: the list of values it passes
    to the [onChange] property, in order, when the input element reports the
    text [val]. *)
Definition NumberControl_onChange (isInteger : bool) (val : string) : list JsValue :=
  if decide (val = "") then [JUndefined]
  else [JNumber (if isInteger then Parse.parseInt val else Parse.parseFloat val)].

(** ** Data exchanged with the host *)

(** Modelled from the spec: the type [ActionFormData] is declared in
    [types/action-schema.ts], which is not among the sources.  It is the
    spec's "mapping from field name to current value", the value being
    untyped at rest. *)
Abbreviation ActionFormData := (gmap string JsValue).

(** Modelled from the spec: the enumeration [Theme] is declared in
    [types/action-schema.ts], which is not among the sources; the spec only
    says that an envelope has a theme.  [Light] is the member the hook names,
    any other member is kept by its name. *)
Inductive Theme : Type :=
| Light
| OtherTheme (name : string).

Module ActionCenterData.
(** Modelled from the spec: the interface [ActionCenterData] of the envelope
    pushed by Action Center is declared in [types/action-schema.ts], which is
    not among the sources.  Its properties are those of the spec's
    HostEnvelope, each of them optional, together with the [id] the page
    reads; they are the properties the hook reads. *)
Record t : Type := mk {
  id : option string;
  data : option ActionFormData;
  isReadOnly : option bool;
  theme : option Theme;
  newTheme : option Theme;
  language : option string;
  newLanguage : option string;
  baseUrl : option string;
  orgName : option string;
  tenantName : option string;
  token : option string;
  newToken : option string;
}.
End ActionCenterData.

(** JavaScript truthiness of an optional string property: the string itself
    when it is present and not empty. *)
Definition truthy (o : option string) : option string :=
  match o with
  | Some s => if decide (s = "") then None else Some s
  | None => None
  end.

(** [a ?? b]. *)
Definition nullish {A : Type} (a b : option A) : option A :=
  match a with
  | Some _ => a
  | None => b
  end.

(** ** The SDK module [lib/uipath.ts] *)

Record UiPathConfig : Type := {
  cfg_baseUrl : string;
  cfg_orgName : string;
  cfg_tenantName : string;
  cfg_secret : string;
}.

(** A client of the external SDK: the configuration it was constructed with
    and the tokens it has since received through its [updateToken] method,
    oldest first. *)
Record UiPath : Type := {
  config : UiPathConfig;
  tokenUpdates : list string;
}.

(** The module-level bindings [sdk] and [sdkInitialized]. *)
Record SdkModule : Type := {
  sdk : UiPath;
  sdkInitialized : bool;
}.

(** ** Observable effects *)

(** Calls on [sdk.taskEvents]. *)
Inductive HostCall : Type :=
| GetTaskDetailsFromActionCenter
| InitializeInActionCenter
| DataChanged (data : ActionFormData)
| CompleteTask (outcome : string) (data : ActionFormData).

(** The host's behaviour at one call: [true] when the call throws. *)
Definition Host : Type := HostCall → bool.

Inductive Effect : Type :=
| Called (c : HostCall) (threw : bool)
| NewUiPath (cfg : UiPathConfig)
| SdkUpdateToken (newToken : string)
| ConsoleLog (message : string)
| ConsoleError (message : string)
| Alert (outcome : string) (formData : ActionFormData).

(** ** State of one mounted hook *)

Record HookState : Type := {
  taskData : option ActionCenterData.t;
  formData : ActionFormData;
  theme : option Theme;
  language : string;
  hasActionCenterData : bool;
  initialDataRef : ActionFormData;
  isInitializedRef : bool;
}.

(** What the hook returns to the page on a render ([UseActionContextResult],
    without the four callbacks). *)
Module Result.
Record t : Type := mk {
  taskData : option ActionCenterData.t;
  formData : ActionFormData;
  isReadOnly : bool;
  theme : option Theme;
  language : string;
  hasActionCenterData : bool;
}.
End Result.

Definition render (s : HookState) : Result.t :=
  {| Result.taskData := taskData s;
     Result.formData := formData s;
     Result.isReadOnly :=
       match taskData s with
       | Some d => default false (ActionCenterData.isReadOnly d)
       | None => false
       end;
     Result.theme := theme s;
     Result.language := language s;
     Result.hasActionCenterData := hasActionCenterData s |}.

Definition isReadOnly (s : HookState) : bool := Result.isReadOnly (render s).

(** Everything an operation can read or change: the hook's state and refs,
    the SDK module, the effects performed so far (oldest first) and the views
    an observer could have read (oldest first). *)
Record World : Type := {
  hook : HookState;
  uipath : SdkModule;
  trace : list Effect;
  observed : list Result.t;
}.

(** The world right after the first render of [useActionContext({initialData})],
    before the mount effect has run; [env] is the client built from the
    environment variables when the SDK module is loaded. *)
Definition initial (env : UiPathConfig) (initialData : ActionFormData) : World :=
  let s := {| taskData := None;
              formData := initialData;
              theme := Some Light;
              language := "en";
              hasActionCenterData := false;
              initialDataRef := initialData;
              isInitializedRef := false |} in
  {| hook := s;
     uipath := {| sdk := {| config := env; tokenUpdates := [] |};
                  sdkInitialized := false |};
     trace := [];
     observed := [render s] |}.

(** ** A monad for code that changes the world and may throw *)

Inductive Completion (A : Type) : Type :=
| Normal (a : A)
| Thrown.
Arguments Normal {A} a.
Arguments Thrown {A}.

Definition Js (A : Type) : Type := World → Completion A * World.

#[global] Instance Js_ret : MRet Js := λ A a w, (Normal a, w).

#[global] Instance Js_bind : MBind Js := λ A B k m w,
  match m w with
  | (Normal a, w') => k a w'
  | (Thrown, w') => (Thrown, w')
  end.

(** [try { body } catch { handler }]. *)
Definition try_catch (body handler : Js ()) : Js () := λ w,
  match body w with
  | (Normal a, w') => (Normal a, w')
  | (Thrown, w') => handler w'
  end.

Definition perform (e : Effect) : Js () := λ w,
  (Normal (),
   {| hook := hook w; uipath := uipath w;
      trace := trace w ++ [e]; observed := observed w |}).

(** A call on [sdk.taskEvents]: recorded, and thrown when the host says so. *)
Definition hostCall (h : Host) (c : HostCall) : Js () := λ w,
  (if h c then Thrown else Normal (),
   {| hook := hook w; uipath := uipath w;
      trace := trace w ++ [Called c (h c)]; observed := observed w |}).

Definition getHook : Js HookState := λ w, (Normal (hook w), w).

(** A React state setter: the new state is committed and can be observed. *)
Definition setState (f : HookState → HookState) : Js () := λ w,
  let s := f (hook w) in
  (Normal (),
   {| hook := s; uipath := uipath w;
      trace := trace w; observed := observed w ++ [render s] |}).

(** An assignment to the [current] property of a ref: no render follows. *)
Definition setRef (f : HookState → HookState) : Js () := λ w,
  (Normal (),
   {| hook := f (hook w); uipath := uipath w;
      trace := trace w; observed := observed w |}).

Definition setSdkModule (f : SdkModule → SdkModule) : Js () := λ w,
  (Normal (),
   {| hook := hook w; uipath := f (uipath w);
      trace := trace w; observed := observed w |}).

(** ** [lib/uipath.ts] *)

Definition initializeSdk (cfg : UiPathConfig) : Js () :=
  perform (NewUiPath cfg);;
  setSdkModule (λ m, {| sdk := {| config := cfg; tokenUpdates := [] |};
                        sdkInitialized := sdkInitialized m |});;
  setSdkModule (λ m, {| sdk := sdk m; sdkInitialized := true |});;
  perform (ConsoleLog "[UiPath SDK] Initialized with Action Center config").

Definition updateToken (newToken : string) : Js () :=
  perform (SdkUpdateToken newToken);;
  setSdkModule (λ m, {| sdk := {| config := config (sdk m);
                                  tokenUpdates := tokenUpdates (sdk m) ++ [newToken] |};
                        sdkInitialized := sdkInitialized m |});;
  perform (ConsoleLog "[UiPath SDK] Token updated").

(** ** [useActionContext] *)

Definition with_taskData (v : option ActionCenterData.t) (s : HookState) : HookState :=
  {| taskData := v; formData := formData s; theme := theme s;
     language := language s; hasActionCenterData := hasActionCenterData s;
     initialDataRef := initialDataRef s; isInitializedRef := isInitializedRef s |}.

Definition with_formData (v : ActionFormData) (s : HookState) : HookState :=
  {| taskData := taskData s; formData := v; theme := theme s;
     language := language s; hasActionCenterData := hasActionCenterData s;
     initialDataRef := initialDataRef s; isInitializedRef := isInitializedRef s |}.

Definition with_theme (v : option Theme) (s : HookState) : HookState :=
  {| taskData := taskData s; formData := formData s; theme := v;
     language := language s; hasActionCenterData := hasActionCenterData s;
     initialDataRef := initialDataRef s; isInitializedRef := isInitializedRef s |}.

Definition with_language (v : string) (s : HookState) : HookState :=
  {| taskData := taskData s; formData := formData s; theme := theme s;
     language := v; hasActionCenterData := hasActionCenterData s;
     initialDataRef := initialDataRef s; isInitializedRef := isInitializedRef s |}.

Definition with_hasActionCenterData (v : bool) (s : HookState) : HookState :=
  {| taskData := taskData s; formData := formData s; theme := theme s;
     language := language s; hasActionCenterData := v;
     initialDataRef := initialDataRef s; isInitializedRef := isInitializedRef s |}.

Definition with_initialDataRef (v : ActionFormData) (s : HookState) : HookState :=
  {| taskData := taskData s; formData := formData s; theme := theme s;
     language := language s; hasActionCenterData := hasActionCenterData s;
     initialDataRef := v; isInitializedRef := isInitializedRef s |}.

Definition with_isInitializedRef (v : bool) (s : HookState) : HookState :=
  {| taskData := taskData s; formData := formData s; theme := theme s;
     language := language s; hasActionCenterData := hasActionCenterData s;
     initialDataRef := initialDataRef s; isInitializedRef := v |}.

Definition setTaskData v : Js () := setState (with_taskData v).
Definition setFormData v : Js () := setState (with_formData v).
Definition setTheme v : Js () := setState (with_theme v).
Definition setLanguage v : Js () := setState (with_language v).
Definition setHasActionCenterData v : Js () := setState (with_hasActionCenterData v).

(** [setFormData((prev) => ...)]: the updater is run on the previous
    snapshot, with whatever effects it performs, and its result is
    committed.  The updater is run once, as React does in production; in
    development under StrictMode React calls it a second time, which repeats
    the effects inside it and changes nothing else. *)
Definition setFormDataWith (updater : ActionFormData → Js ActionFormData) : Js () :=
  s ← getHook;
  updated ← updater (formData s);
  setFormData updated.

Definition notifyDataChanged (h : Host) (data : ActionFormData) : Js () :=
  try_catch (hostCall h (DataChanged data)) (mret ()).

(** The callback handed to [getTaskDetailsFromActionCenter]: what the hook
    does with one received envelope. *)
Definition onTaskDetails (d : ActionCenterData.t) : Js () :=
  perform (ConsoleLog "[Action Context] Received data from Action Center:");;
  setTaskData (Some d);;
  match truthy (ActionCenterData.baseUrl d), truthy (ActionCenterData.orgName d),
        truthy (ActionCenterData.tenantName d), truthy (ActionCenterData.token d) with
  | Some b, Some o, Some t, Some k =>
      initializeSdk {| cfg_baseUrl := b; cfg_orgName := o;
                       cfg_tenantName := t; cfg_secret := k |}
  | _, _, _, _ => mret ()
  end;;
  match truthy (ActionCenterData.newToken d) with
  | Some t => updateToken t
  | None => mret ()
  end;;
  setTheme (nullish (ActionCenterData.newTheme d) (ActionCenterData.theme d));;
  setLanguage (default "en" (nullish (ActionCenterData.newLanguage d)
                                     (ActionCenterData.language d)));;
  match ActionCenterData.data d with
  | Some fd => setFormData fd;; setRef (with_initialDataRef fd)
  | None => mret ()
  end;;
  setHasActionCenterData true.

(** The mount effect.  [h] is the host's behaviour during this run. *)
Definition mountEffect (h : Host) : Js () :=
  s ← getHook;
  if isInitializedRef s then mret ()
  else
    setRef (with_isInitializedRef true);;
    try_catch
      (hostCall h GetTaskDetailsFromActionCenter;;
       hostCall h InitializeInActionCenter;;
       perform (ConsoleLog "[Action Context] Initialized - waiting for Action Center data"))
      (perform (ConsoleError "[Action Context] Failed to initialize:")).

Definition updateField (h : Host) (fieldName : string) (value : JsValue) : Js () :=
  setFormDataWith (λ prev,
    let updated := <[fieldName := value]> prev in
    notifyDataChanged h updated;;
    mret updated).

(** [{ ...prev, ...data }]: the properties of [data] win. *)
Definition updateFormData (h : Host) (data : ActionFormData) : Js () :=
  setFormDataWith (λ prev,
    let updated := data ∪ prev in
    notifyDataChanged h updated;;
    mret updated).

(** [completeTask] is rebuilt on every render with the [formData] of that
    render ([useCallback] with the dependency [formData]) and sends that
    value, [renderedFormData], not the state at the time of the call.  The
    alert is recorded with the two values its text interpolates; the text
    itself is not modelled. *)
Definition completeTask (h : Host) (renderedFormData : ActionFormData)
    (outcome : string) : Js () :=
  perform (ConsoleLog "[Action Context] Completing task with outcome:");;
  try_catch
    (hostCall h (CompleteTask outcome renderedFormData))
    (perform (ConsoleLog "[Action Context] Task complete (preview):");;
     perform (Alert outcome renderedFormData)).

Definition resetForm (h : Host) : Js () :=
  s ← getHook;
  setFormData (initialDataRef s);;
  notifyDataChanged h (initialDataRef s).

(** ** Sessions *)

(** The operations the page can invoke. *)
Inductive LocalOp : Type :=
| UpdateField (fieldName : string) (value : JsValue)
| UpdateFormData (data : ActionFormData)
| CompleteTaskOp (outcome : string)
| ResetForm.

(** What can happen to a mounted hook: its mount effect runs (again), the
    host invokes the registered callback with an envelope, or the page
    invokes one of the returned operations. *)
Inductive Event : Type :=
| Mount (h : Host)
| Envelope (d : ActionCenterData.t)
| Local (h : Host) (op : LocalOp).

(** One of the callbacks returned by the render whose state was [rendered].
    Only [completeTask] depends on it: the two updates go through a
    functional updater and [resetForm] reads a ref. *)
Definition runLocal (rendered : HookState) (h : Host) (op : LocalOp) : Js () :=
  match op with
  | UpdateField fieldName value => updateField h fieldName value
  | UpdateFormData data => updateFormData h data
  | CompleteTaskOp outcome => completeTask h (formData rendered) outcome
  | ResetForm => resetForm h
  end.

(** An event is a task of its own: a local operation is called on the
    callbacks of the latest render, whose state is the state the task starts
    in. *)
Definition handle (ev : Event) : Js () :=
  match ev with
  | Mount h => mountEffect h
  | Envelope d => onTaskDetails d
  | Local h op => λ w, runLocal (hook w) h op w
  end.

(** A handler of the page that writes a field and then completes the task,
    in one task: both callbacks are those of the render the handler was
    created in. *)
Definition writeThenComplete (rendered : HookState) (h : Host) (fieldName : string)
    (value : JsValue) (outcome : string) : Js () :=
  runLocal rendered h (UpdateField fieldName value);;
  runLocal rendered h (CompleteTaskOp outcome).

Definition step (w : World) (ev : Event) : World := snd (handle ev w).

Definition run (evs : list Event) (w : World) : World := fold_left step evs w.

(** The host is present: no call throws. *)
Definition connected : Host := λ _, false.

(** No host: every call throws. *)
Definition preview : Host := λ _, true.

(** ** Reading the trace *)

Definition isSubscribe (e : Effect) : bool :=
  match e with
  | Called GetTaskDetailsFromActionCenter _ => true
  | _ => false
  end.

Definition isReady (e : Effect) : bool :=
  match e with
  | Called InitializeInActionCenter _ => true
  | _ => false
  end.

(** The calls on the SDK module: client constructions and token updates. *)
Definition isSdkCall (e : Effect) : bool :=
  match e with
  | NewUiPath _ | SdkUpdateToken _ => true
  | _ => false
  end.

Definition subscriptions (w : World) : nat := length (List.filter isSubscribe (trace w)).
Definition readySignals (w : World) : nat := length (List.filter isReady (trace w)).
Definition sdkCalls (w : World) : list Effect := List.filter isSdkCall (trace w).

(** ** Specification-level readings of a session *)

(** The value most recently written to [k] by a sequence of writes. *)
Fixpoint lastWrite (k : string) (writes : list (string * JsValue)) : option JsValue :=
  match writes with
  | [] => None
  | (k', v) :: rest =>
      match lastWrite k rest with
      | Some v' => Some v'
      | None => if decide (k' = k) then Some v else None
      end
  end.

(** [base] overlaid with [writes], last write winning per key. *)
Definition overlay (base : ActionFormData) (writes : list (string * JsValue))
    (k : string) : option JsValue :=
  match lastWrite k writes with
  | Some v => Some v
  | None => base !! k
  end.

(** The snapshot most recently supplied from outside: the data of the last
    envelope that carried data, or [baseline] when there is none. *)
Fixpoint lastBaseline (baseline : ActionFormData) (evs : list Event) : ActionFormData :=
  match evs with
  | [] => baseline
  | Envelope d :: rest =>
      lastBaseline (default baseline (ActionCenterData.data d)) rest
  | _ :: rest => lastBaseline baseline rest
  end.

(** The envelope most recently received, or [latest] when there is none. *)
Fixpoint lastEnvelope (latest : option ActionCenterData.t) (evs : list Event)
    : option ActionCenterData.t :=
  match evs with
  | [] => latest
  | Envelope d :: rest => lastEnvelope (Some d) rest
  | _ :: rest => lastEnvelope latest rest
  end.

(** The full credential set of an envelope: all four of [baseUrl],
    [orgName], [tenantName] and [token] present and not empty. *)
Definition credentials (d : ActionCenterData.t) : option UiPathConfig :=
  match ActionCenterData.baseUrl d, ActionCenterData.orgName d,
        ActionCenterData.tenantName d, ActionCenterData.token d with
  | Some b, Some o, Some t, Some k =>
      if decide (b ≠ "" ∧ o ≠ "" ∧ t ≠ "" ∧ k ≠ "")
      then Some {| cfg_baseUrl := b; cfg_orgName := o;
                   cfg_tenantName := t; cfg_secret := k |}
      else None
  | _, _, _, _ => None
  end.

(** The token updates an envelope asks for. *)
Definition refreshedTokens (d : ActionCenterData.t) : list string :=
  match truthy (ActionCenterData.newToken d) with
  | Some t => [t]
  | None => []
  end.

(** ** Closed forms of what an envelope does *)

(** The SDK module after an envelope: a full credential set replaces the
    client, and the refreshed token, if any, goes to the client that is
    current by then. *)
Definition sdkAfter (d : ActionCenterData.t) (m : SdkModule) : SdkModule :=
  match credentials d with
  | Some c =>
      {| sdk := {| config := c; tokenUpdates := refreshedTokens d |};
         sdkInitialized := true |}
  | None =>
      {| sdk := {| config := config (sdk m);
                   tokenUpdates := tokenUpdates (sdk m) ++ refreshedTokens d |};
         sdkInitialized := sdkInitialized m |}
  end.

Definition sdkTrace (d : ActionCenterData.t) : list Effect :=
  match credentials d with
  | Some c => [NewUiPath c;
               ConsoleLog "[UiPath SDK] Initialized with Action Center config"]
  | None => []
  end
  ++ match truthy (ActionCenterData.newToken d) with
     | Some t => [SdkUpdateToken t; ConsoleLog "[UiPath SDK] Token updated"]
     | None => []
     end.

(** The hook state after the setters that precede the data branch. *)
Definition beforeData (d : ActionCenterData.t) (s : HookState) : HookState :=
  with_language
    (default "en" (nullish (ActionCenterData.newLanguage d) (ActionCenterData.language d)))
    (with_theme (nullish (ActionCenterData.newTheme d) (ActionCenterData.theme d))
       (with_taskData (Some d) s)).

Definition afterData (d : ActionCenterData.t) (s : HookState) : HookState :=
  match ActionCenterData.data d with
  | Some fd => with_initialDataRef fd (with_formData fd (beforeData d s))
  | None => beforeData d s
  end.

(** The views committed by an envelope before the flag is set. *)
Definition earlierViews (d : ActionCenterData.t) (s : HookState) : list Result.t :=
  [render (with_taskData (Some d) s);
   render (with_theme (nullish (ActionCenterData.newTheme d) (ActionCenterData.theme d))
             (with_taskData (Some d) s));
   render (beforeData d s)]
  ++ match ActionCenterData.data d with
     | Some fd => [render (with_formData fd (beforeData d s))]
     | None => []
     end.

(** ** Sessions of a particular shape *)

(** A sequence of [updateField] calls, each with the host's behaviour at
    that call. *)
Definition fieldWrites (calls : list (Host * (string * JsValue))) : list Event :=
  map (λ c, Local c.1 (UpdateField c.2.1 c.2.2)) calls.

(** A session in which no envelope is ever received: mount effects ([None])
    and local operations only. *)
Definition withoutHost (xs : list (Host * option LocalOp)) : list Event :=
  map (λ x, match x.2 with
            | Some op => Local x.1 op
            | None => Mount x.1
            end) xs.

(** ** The mount guard *)

(** How many more times the mount effect may still reach the host. *)
Definition mountBudget (w : World) : nat :=
  if isInitializedRef (hook w) then 0 else 1.

(** The fallback display of [completeTask]. *)
Definition isAlert (e : Effect) : bool :=
  match e with
  | Alert _ _ => true
  | _ => false
  end.

(** The payload of a completion call. *)
Definition completionOf (e : Effect) : option (string * ActionFormData) :=
  match e with
  | Called (CompleteTask outcome data) _ => Some (outcome, data)
  | _ => None
  end.

(** The payloads of the completion calls of a trace, oldest first. *)
Definition completions (t : list Effect) : list (string * ActionFormData) :=
  omap completionOf t.

(** ** Concrete sessions *)

(** The client configuration when no environment variable is set. *)
Definition defaultEnv : UiPathConfig :=
  {| cfg_baseUrl := "https://cloud.uipath.com"; cfg_orgName := "";
     cfg_tenantName := ""; cfg_secret := "" |}.

Definition sarah : ActionFormData := {[ "patientName" := JString "Sarah Johnson" ]}.

Definition alice : ActionFormData :=
  <[ "patientName" := JString "Alice" ]> {[ "reviewerComments" := JString "" ]}.

(** An envelope that only marks the task read-only. *)
Definition readOnlyNotice : ActionCenterData.t :=
  ActionCenterData.mk None None (Some true) None None None None None None None None None.

(** An envelope with data for a task that is already read-only. *)
Definition readOnlyTask : ActionCenterData.t :=
  ActionCenterData.mk None (Some alice) (Some true) None None None None None None None None None.

(** A full credential set together with a refreshed token. *)
Definition loginAndRefresh : ActionCenterData.t :=
  ActionCenterData.mk None None None None None None None
    (Some "https://alpha.uipath.com") (Some "acme") (Some "prod") (Some "t0")
    (Some "t1").

(** All four credentials are set, but the token is the empty string. *)
Definition blankToken : ActionCenterData.t :=
  ActionCenterData.mk None None None None None None None
    (Some "https://alpha.uipath.com") (Some "acme") (Some "prod") (Some "")
    None.

(** * The rest of the application *)

(** The credentials of the last envelope that carried a full set, or
    [latest] when there is none. *)
Fixpoint lastCredentials (latest : option UiPathConfig) (evs : list Event)
    : option UiPathConfig :=
  match evs with
  | [] => latest
  | Envelope d :: rest =>
      lastCredentials (match credentials d with
                       | Some c => Some c
                       | None => latest
                       end) rest
  | _ :: rest => lastCredentials latest rest
  end.

(** The refreshed tokens received since the client was last constructed,
    oldest first, continuing [tokens]. *)
Fixpoint tokensSinceConstruction (tokens : list string) (evs : list Event) : list string :=
  match evs with
  | [] => tokens
  | Envelope d :: rest =>
      tokensSinceConstruction
        (match credentials d with
         | Some _ => refreshedTokens d
         | None => tokens ++ refreshedTokens d
         end) rest
  | _ :: rest => tokensSinceConstruction tokens rest
  end.

(** The operations that write the snapshot. *)
Inductive WriteOp : Type :=
| WriteField (fieldName : string) (value : JsValue)
| WriteFields (data : ActionFormData)
| WriteReset.

Definition writeOp (op : WriteOp) : LocalOp :=
  match op with
  | WriteField fieldName value => UpdateField fieldName value
  | WriteFields data => UpdateFormData data
  | WriteReset => ResetForm
  end.

Definition isWrite (ev : Event) : bool :=
  match ev with
  | Local _ (UpdateField _ _) | Local _ (UpdateFormData _) | Local _ ResetForm => true
  | _ => false
  end.

Definition isDataChanged (e : Effect) : bool :=
  match e with
  | Called (DataChanged _) _ => true
  | _ => false
  end.

(** The payload of the data-changed call made last. *)
Fixpoint lastNotified (latest : option ActionFormData) (t : list Effect)
    : option ActionFormData :=
  match t with
  | [] => latest
  | Called (DataChanged data) _ :: rest => lastNotified (Some data) rest
  | _ :: rest => lastNotified latest rest
  end.

(** A subscription call that returned. *)
Definition isRegistered (e : Effect) : bool :=
  match e with
  | Called GetTaskDetailsFromActionCenter false => true
  | _ => false
  end.

Definition registrations (w : World) : nat :=
  length (List.filter isRegistered (trace w)).

(** What the state setters of an envelope leave behind, read off the task
    data. *)
Definition envelopeView (s : HookState) : Prop :=
  match taskData s with
  | Some d =>
      hasActionCenterData s = true
      ∧ language s = default "en" (nullish (ActionCenterData.newLanguage d)
                                           (ActionCenterData.language d))
      ∧ theme s = nullish (ActionCenterData.newTheme d) (ActionCenterData.theme d)
  | None =>
      hasActionCenterData s = false ∧ language s = "en" ∧ theme s = Some Light
  end.

Definition dataChangedCalls (w : World) : nat :=
  length (List.filter isDataChanged (trace w)).

(** Events that leave the snapshot to the form: everything but an envelope
    that carries data. *)
Definition keepsSnapshot (ev : Event) : bool :=
  match ev with
  | Envelope d =>
      match ActionCenterData.data d with
      | Some _ => false
      | None => true
      end
  | _ => true
  end.

(** ** The configuration of the default client *)

Module SdkConfig.

(** The variables of [import.meta.env] the SDK module reads; a variable that
    is not set is [None]. *)
Record ImportMetaEnv : Type := {
  VITE_UIPATH_BASE_URL : option string;
  VITE_UIPATH_ORG_NAME : option string;
  VITE_UIPATH_TENANT_NAME : option string;
  VITE_UIPATH_ACCESS_TOKEN : option string;
  VITE_UIPATH_CLIENT_ID : option string;
  VITE_UIPATH_REDIRECT_URI : option string;
  VITE_UIPATH_SCOPE : option string;
}.

(** The two shapes of configuration object [createSDKConfig] returns. *)
Inductive t : Type :=
| WithSecret (baseUrl orgName tenantName secret : string)
| WithOAuth (baseUrl orgName tenantName clientId redirectUri scope : string).

(** [a || b] for an optional string [a]. *)
Definition orElse (a : option string) (b : string) : string :=
  match truthy a with
  | Some s => s
  | None => b
  end.

Definition createSDKConfig (env : ImportMetaEnv) (origin : string) : t :=
  let baseUrl := orElse (VITE_UIPATH_BASE_URL env) "https://cloud.uipath.com" in
  let orgName := orElse (VITE_UIPATH_ORG_NAME env) "" in
  let tenantName := orElse (VITE_UIPATH_TENANT_NAME env) "" in
  let secret := orElse (VITE_UIPATH_ACCESS_TOKEN env) "" in
  let clientId := orElse (VITE_UIPATH_CLIENT_ID env) "" in
  let redirectUri := orElse (VITE_UIPATH_REDIRECT_URI env) "" in
  let scope := orElse (VITE_UIPATH_SCOPE env) "" in
  if decide (secret ≠ "") then WithSecret baseUrl orgName tenantName secret
  else if decide (clientId ≠ "" ∧ scope ≠ "") then
    WithOAuth baseUrl orgName tenantName clientId
      (orElse (Some redirectUri) origin) scope
  else
    WithSecret baseUrl (orElse (Some orgName) "default")
      (orElse (Some tenantName) "default") "placeholder".

(** The configuration of the default client in [lib/uipath.ts]. *)
Definition defaultClient (env : ImportMetaEnv) : UiPathConfig :=
  {| cfg_baseUrl := orElse (VITE_UIPATH_BASE_URL env) "https://cloud.uipath.com";
     cfg_orgName := orElse (VITE_UIPATH_ORG_NAME env) "";
     cfg_tenantName := orElse (VITE_UIPATH_TENANT_NAME env) "";
     cfg_secret := orElse (VITE_UIPATH_ACCESS_TOKEN env) "" |}.

Definition baseUrl (c : t) : string :=
  match c with
  | WithSecret b _ _ _ | WithOAuth b _ _ _ _ _ => b
  end.

End SdkConfig.

(** ** Reading numerals *)

Definition allDigits (s : string) : bool :=
  forallb (λ c, bool_decide (is_Some (Parse.digitValue c))) (list_ascii_of_string s).


(** The number a string of decimal digits denotes, continuing [acc]. *)
Fixpoint decimalValue (acc : N) (s : string) : N :=
  match s with
  | String c rest =>
      match Parse.digitValue c with
      | Some d => decimalValue (10 * acc + d)%N rest
      | None => acc
      end
  | EmptyString => acc
  end.

(** ** The page *)

Module Page.

(** [ToBoolean]. *)
Definition toBoolean (v : JsValue) : bool :=
  match v with
  | JUndefined | JNull => false
  | JBoolean b => b
  | JNumber NaN => false
  | JNumber (Infinity _) => true
  | JNumber (Finite _ m _) => negb (m =? 0)%N
  | JString s => negb (bool_decide (s = ""))
  | JArray _ | JObject _ => true
  end.

(** [String.prototype.trim] on ASCII text. *)
Fixpoint trimStart (s : string) : string :=
  match s with
  | String c rest => if Parse.isStrWhiteSpaceChar c then trimStart rest else s
  | EmptyString => EmptyString
  end.

Definition trimEnd (s : string) : string :=
  String.rev (trimStart (String.rev s)).

Definition trim (s : string) : string := trimEnd (trimStart s).

(** [formData.reviewerComments && formData.reviewerComments.trim().length > 0]
    as the page uses it, converted to a boolean.  A truthy value that is not
    a string has no [trim] method, and rendering the tab throws. *)
Definition isFormValid (formData : ActionFormData) : Completion bool :=
  let comments := default JUndefined (formData !! "reviewerComments") in
  if toBoolean comments then
    match comments with
    | JString s => Normal (bool_decide (0 < String.length (trim s))%nat)
    | _ => Thrown
    end
  else Normal false.

Definition getStatusColor (status : string) : string :=
  if bool_decide (status ∈ ["acceptable"; "compliant"; "good"; "none"])
  then "bg-green-100 text-green-800 border-green-200"
  else if bool_decide (status ∈ ["needs-attention"; "due"; "ongoing"])
  then "bg-yellow-100 text-yellow-800 border-yellow-200"
  else if bool_decide (status = "high-risk")
  then "bg-red-100 text-red-800 border-red-200"
  else "bg-gray-100 text-gray-800 border-gray-200".

Definition getStatusIcon (status : string) : string :=
  if bool_decide (status ∈ ["acceptable"; "compliant"; "good"; "none"])
  then "✓"
  else if bool_decide (status ∈ ["needs-attention"; "due"; "ongoing"])
  then "⚠"
  else if bool_decide (status = "high-risk")
  then "⚠"
  else "•".

End Page.

(** Text with a character that is not white space. *)
Definition hasVisibleChar (s : string) : bool :=
  existsb (λ c, negb (Parse.isStrWhiteSpaceChar c)) (list_ascii_of_string s).

(** Text made of ASCII characters only. *)
Definition asciiText (s : string) : bool :=
  forallb (λ c, (N_of_ascii c <? 128)%N) (list_ascii_of_string s).

(** ** [useUiPathEntities] *)

Module Entities.
Section WithEntity.

(** The type of an entity in the external SDK. *)
Context {EntityGetResponse : Type}.

Record State : Type := {
  entities : list EntityGetResponse;
  loading : bool;
  error : option string;
}.

(** What [sdk.entities.getAll()] can be rejected with: an [Error] with its
    message, or any other value. *)
Inductive Rejection : Type :=
| ErrorInstance (message : string)
| OtherValue.

(** How one call of [fetchEntities] ends. *)
Inductive Settlement : Type :=
| Fulfilled (response : list EntityGetResponse)
| Failed (err : Rejection).

(** One call of [fetchEntities] is two tasks: the part before the [await],
    and the part after it once the promise has settled. *)
Inductive FetchEvent : Type :=
| Started
| Settled (r : Settlement).

Definition initial : State :=
  {| entities := []; loading := true; error := None |}.

Definition messageOf (err : Rejection) : string :=
  match err with
  | ErrorInstance message => message
  | OtherValue => "Failed to fetch entities"
  end.

Definition step (s : State) (ev : FetchEvent) : State :=
  match ev with
  | Started => {| entities := entities s; loading := true; error := None |}
  | Settled (Fulfilled response) =>
      {| entities := response; loading := false; error := error s |}
  | Settled (Failed err) =>
      {| entities := entities s; loading := false; error := Some (messageOf err) |}
  end.

Definition run (evs : list FetchEvent) (s : State) : State := fold_left step evs s.

(** Fetches that do not overlap: each one settles before the next starts.
    The first is the one the mount effect makes. *)
Definition oneAfterAnother (rs : list Settlement) : list FetchEvent :=
  flat_map (λ r, [Started; Settled r]) rs.

(** The response of the last fetch that was fulfilled, or [latest]. *)
Fixpoint lastFulfilled (latest : list EntityGetResponse) (rs : list Settlement)
    : list EntityGetResponse :=
  match rs with
  | [] => latest
  | Fulfilled response :: rest => lastFulfilled response rest
  | Failed _ :: rest => lastFulfilled latest rest
  end.

End WithEntity.
Arguments State : clear implicits.
Arguments Settlement : clear implicits.
Arguments FetchEvent : clear implicits.
End Entities.

(** * Lemmas about the embedding *)

(** ** The parsers on examples *)

Example parseInt_3_7 : Parse.parseInt "3.7" = Finite false 3 0.
Proof. reflexivity. Qed.

Example parseFloat_3_7 : Parse.parseFloat "3.7" = Finite false 4165829655317709 (-50).
Proof. reflexivity. Qed.

Example parseFloat_exp : Parse.parseFloat "  -12.50e+2xyz" = Finite true 625 1.
Proof. reflexivity. Qed.

Example parseFloat_dot : Parse.parseFloat "." = NaN.
Proof. reflexivity. Qed.

Example parseFloat_trailing_dot : Parse.parseFloat "5." = Finite false 5 0.
Proof. reflexivity. Qed.

Example parseInt_abc : Parse.parseInt "abc" = NaN.
Proof. reflexivity. Qed.

(** Above 2^53 a numeral is rounded, and from 2^1024 on it is infinite. *)
Example parseInt_rounds : Parse.parseInt "9007199254740993" = Finite false 1 53.
Proof. vm_compute. reflexivity. Qed.

(** A one followed by 309 zeros is beyond the largest binary64. *)
Example parseInt_overflows :
  Parse.parseInt (String.concat "" ("1" :: repeat "0" 309)) = Infinity false.
Proof. vm_compute. reflexivity. Qed.

Example parseFloat_overflows : Parse.parseFloat "1.0e400" = Infinity false.
Proof. vm_compute. reflexivity. Qed.

Example parseFloat_underflows : Parse.parseFloat "2e-324" = Finite false 0 0.
Proof. vm_compute. reflexivity. Qed.

(** A no-break space in front is skipped. *)
Example parseInt_nbsp :
  Parse.parseInt (String (ascii_of_N 194) (String (ascii_of_N 160) "7")) = Finite false 7 0.
Proof. reflexivity. Qed.


(** ** Closed forms of the operations *)

(** ** Rounding whole numbers *)

Lemma roundHalfEven_1 (a : N) : Binary64.roundHalfEven a 1 = a.
Proof. unfold Binary64.roundHalfEven. by rewrite N.div_1_r, N.mod_1_r. Qed.

Lemma oddPart_exponent (p : positive) (e : Z) : (e ≤ (Binary64.oddPart p e).2)%Z.
Proof.
  revert e. induction p as [p IH | p IH |]; intros e; simpl; [lia | | lia].
  specialize (IH (e + 1)%Z). lia.
Qed.

Lemma finite_whole (negative : bool) (m : N) (e : Z) :
  (0 ≤ e)%Z → isWhole (Binary64.finite negative m e) = true.
Proof.
  intros He. destruct m as [| p]; [done |]. unfold Binary64.finite.
  pose proof (oddPart_exponent p e) as Hp.
  destruct (Binary64.oddPart p e) as [p' e']. simpl in *.
  apply Z.leb_le. lia.
Qed.

(** Factors of two may be moved between the mantissa and the exponent. *)
Lemma finite_shift (negative : bool) (m n : N) (e : Z) :
  Binary64.finite negative (m * 2 ^ n) (e - Z.of_N n) = Binary64.finite negative m e.
Proof.
  destruct m as [| p]; [done |].
  induction n as [| n IH] using N.peano_ind.
  - rewrite N.pow_0_r, N.mul_1_r. f_equal. lia.
  - rewrite N.pow_succ_r', N.mul_assoc, (N.mul_comm (N.pos p) 2), <- N.mul_assoc.
    rewrite <- IH.
    destruct (N.pos p * 2 ^ n)%N as [| q]; [done |].
    change (2 * N.pos q)%N with (N.pos q~0). unfold Binary64.finite. simpl Binary64.oddPart.
    by replace (e - Z.of_N (N.succ n) + 1)%Z with (e - Z.of_N n)%Z by lia.
Qed.


(** A whole number rounds to a whole number or to an infinity. *)
Lemma ofRatio_whole (negative : bool) (v : N) :
  Binary64.ofRatio negative v 1 = Infinity negative
  ∨ isWhole (Binary64.ofRatio negative v 1) = true.
Proof.
  unfold Binary64.ofRatio. destruct (N.eqb_spec v 0) as [_ | _]; [by right |].
  cbv zeta. set (p := Z.max (Binary64.floorLog2 v 1 - 52) (-1074)).
  destruct ((971 <? p)%Z || _); [by left | right].
  destruct (Z.leb_spec 0 p) as [Hp | Hp]; [by apply finite_whole |].
  rewrite roundHalfEven_1.
  pose proof (finite_shift negative v (Z.to_N (- p)) 0) as Hs.
  replace (0 - Z.of_N (Z.to_N (- p)))%Z with p in Hs by lia.
  rewrite Hs. by apply finite_whole.
Qed.




Ltac js_run :=
  unfold mbind, mret, Js_bind, Js_ret, try_catch, hostCall, perform, getHook,
    setState, setRef, setSdkModule; simpl.

Lemma notifyDataChanged_run (h : Host) (data : ActionFormData) (w : World) :
  notifyDataChanged h data w =
    (Normal (),
     {| hook := hook w; uipath := uipath w;
        trace := trace w ++ [Called (DataChanged data) (h (DataChanged data))];
        observed := observed w |}).
Proof.
  unfold notifyDataChanged. js_run. destruct (h (DataChanged data)); reflexivity.
Qed.

Lemma updateField_run (h : Host) (fieldName : string) (value : JsValue) (w : World) :
  updateField h fieldName value w =
    let updated := <[fieldName := value]> (formData (hook w)) in
    (Normal (),
     {| hook := with_formData updated (hook w); uipath := uipath w;
        trace := trace w ++ [Called (DataChanged updated) (h (DataChanged updated))];
        observed := observed w ++ [render (with_formData updated (hook w))] |}).
Proof.
  unfold updateField, setFormDataWith, setFormData.
  unfold mbind at 1 2, Js_bind, getHook. simpl.
  unfold mbind, Js_bind. rewrite notifyDataChanged_run. reflexivity.
Qed.

Lemma updateFormData_run (h : Host) (data : ActionFormData) (w : World) :
  updateFormData h data w =
    let updated := data ∪ formData (hook w) in
    (Normal (),
     {| hook := with_formData updated (hook w); uipath := uipath w;
        trace := trace w ++ [Called (DataChanged updated) (h (DataChanged updated))];
        observed := observed w ++ [render (with_formData updated (hook w))] |}).
Proof.
  unfold updateFormData, setFormDataWith, setFormData.
  unfold mbind at 1 2, Js_bind, getHook. simpl.
  unfold mbind, Js_bind. rewrite notifyDataChanged_run. reflexivity.
Qed.

Lemma resetForm_run (h : Host) (w : World) :
  resetForm h w =
    let baseline := initialDataRef (hook w) in
    (Normal (),
     {| hook := with_formData baseline (hook w); uipath := uipath w;
        trace := trace w ++ [Called (DataChanged baseline) (h (DataChanged baseline))];
        observed := observed w ++ [render (with_formData baseline (hook w))] |}).
Proof.
  unfold resetForm, setFormData.
  unfold mbind, Js_bind, getHook, setState. simpl.
  rewrite notifyDataChanged_run. reflexivity.
Qed.

Lemma completeTask_run (h : Host) (renderedFormData : ActionFormData)
    (outcome : string) (w : World) :
  completeTask h renderedFormData outcome w =
    let call := CompleteTask outcome renderedFormData in
    (Normal (),
     {| hook := hook w; uipath := uipath w;
        trace :=
          trace w
          ++ [ConsoleLog "[Action Context] Completing task with outcome:";
              Called call (h call)]
          ++ (if h call
              then [ConsoleLog "[Action Context] Task complete (preview):";
                    Alert outcome renderedFormData]
              else []);
        observed := observed w |}).
Proof.
  unfold completeTask. js_run.
  destruct (h (CompleteTask outcome renderedFormData)); simpl;
    rewrite <- ?app_assoc; reflexivity.
Qed.

Lemma mountEffect_run (h : Host) (w : World) :
  mountEffect h w =
    if isInitializedRef (hook w) then (Normal (), w)
    else
      (Normal (),
       {| hook := with_isInitializedRef true (hook w); uipath := uipath w;
          trace :=
            trace w
            ++ Called GetTaskDetailsFromActionCenter (h GetTaskDetailsFromActionCenter)
               :: (if h GetTaskDetailsFromActionCenter
                   then [ConsoleError "[Action Context] Failed to initialize:"]
                   else Called InitializeInActionCenter (h InitializeInActionCenter)
                        :: (if h InitializeInActionCenter
                            then [ConsoleError "[Action Context] Failed to initialize:"]
                            else [ConsoleLog "[Action Context] Initialized - waiting for Action Center data"]));
          observed := observed w |}).
Proof.
  unfold mountEffect. js_run.
  destruct (isInitializedRef (hook w)); [reflexivity |]. simpl.
  destruct (h GetTaskDetailsFromActionCenter), (h InitializeInActionCenter); simpl;
    rewrite <- ?app_assoc; reflexivity.
Qed.

Lemma credentials_truthy (d : ActionCenterData.t) :
  credentials d =
    match truthy (ActionCenterData.baseUrl d), truthy (ActionCenterData.orgName d),
          truthy (ActionCenterData.tenantName d), truthy (ActionCenterData.token d) with
    | Some b, Some o, Some t, Some k =>
        Some {| cfg_baseUrl := b; cfg_orgName := o;
                cfg_tenantName := t; cfg_secret := k |}
    | _, _, _, _ => None
    end.
Proof.
  unfold credentials, truthy.
  destruct (ActionCenterData.baseUrl d) as [b|], (ActionCenterData.orgName d) as [o|],
    (ActionCenterData.tenantName d) as [t|], (ActionCenterData.token d) as [k|];
    repeat case_decide; first [reflexivity | exfalso; tauto].
Qed.

Lemma credentials_branch (d : ActionCenterData.t) :
  match truthy (ActionCenterData.baseUrl d), truthy (ActionCenterData.orgName d),
        truthy (ActionCenterData.tenantName d), truthy (ActionCenterData.token d) with
  | Some b, Some o, Some t, Some k =>
      initializeSdk {| cfg_baseUrl := b; cfg_orgName := o;
                       cfg_tenantName := t; cfg_secret := k |}
  | _, _, _, _ => mret ()
  end =
  match credentials d with
  | Some c => initializeSdk c
  | None => mret ()
  end.
Proof.
  rewrite credentials_truthy.
  destruct (truthy (ActionCenterData.baseUrl d)), (truthy (ActionCenterData.orgName d)),
    (truthy (ActionCenterData.tenantName d)), (truthy (ActionCenterData.token d));
    reflexivity.
Qed.

Lemma onTaskDetails_run (d : ActionCenterData.t) (w : World) :
  onTaskDetails d w =
    (Normal (),
     {| hook := with_hasActionCenterData true (afterData d (hook w));
        uipath := sdkAfter d (uipath w);
        trace := trace w
                 ++ ConsoleLog "[Action Context] Received data from Action Center:"
                    :: sdkTrace d;
        observed := observed w ++ earlierViews d (hook w)
                    ++ [render (with_hasActionCenterData true (afterData d (hook w)))] |}).
Proof.
  unfold onTaskDetails. rewrite credentials_branch.
  unfold sdkAfter, sdkTrace, refreshedTokens, afterData, earlierViews.
  destruct w as [s [[c toks] ini] tr obs].
  destruct (credentials d), (truthy (ActionCenterData.newToken d)),
    (ActionCenterData.data d);
    cbv [initializeSdk updateToken setTaskData setTheme setLanguage
         setFormData setHasActionCenterData beforeData
         mbind mret Js_bind Js_ret perform setState setRef setSdkModule
         hook uipath trace observed sdk config tokenUpdates sdkInitialized];
    rewrite <- ?app_assoc, ?app_nil_r; cbn [app]; reflexivity.
Qed.

(** ** Steps of a session *)

Lemma step_updateField (w : World) (h : Host) (fieldName : string) (value : JsValue) :
  step w (Local h (UpdateField fieldName value)) = snd (updateField h fieldName value w).
Proof. reflexivity. Qed.

Lemma step_completeTask (w : World) (h : Host) (outcome : string) :
  step w (Local h (CompleteTaskOp outcome))
  = snd (completeTask h (formData (hook w)) outcome w).
Proof. reflexivity. Qed.

Lemma run_app (evs1 evs2 : list Event) (w : World) :
  run (evs1 ++ evs2) w = run evs2 (run evs1 w).
Proof. unfold run. apply fold_left_app. Qed.

Lemma run_cons (ev : Event) (evs : list Event) (w : World) :
  run (ev :: evs) w = run evs (step w ev).
Proof. reflexivity. Qed.

(** No operation of the hook lets an exception escape. *)
Lemma handle_normal (ev : Event) (w : World) : fst (handle ev w) = Normal ().
Proof.
  destruct ev as [h | d | h [fieldName value | data | outcome |]]; simpl.
  - rewrite mountEffect_run. by destruct (isInitializedRef (hook w)).
  - by rewrite onTaskDetails_run.
  - by rewrite updateField_run.
  - by rewrite updateFormData_run.
  - by rewrite completeTask_run.
  - by rewrite resetForm_run.
Qed.

(** What a local operation or a mount leaves alone. *)
Lemma local_keeps_taskData (w : World) (h : Host) (op : LocalOp) :
  taskData (hook (step w (Local h op))) = taskData (hook w).
Proof.
  unfold step. destruct op; simpl.
  - by rewrite updateField_run.
  - by rewrite updateFormData_run.
  - by rewrite completeTask_run.
  - by rewrite resetForm_run.
Qed.

Lemma mount_keeps_state (w : World) (h : Host) :
  taskData (hook (step w (Mount h))) = taskData (hook w)
  ∧ formData (hook (step w (Mount h))) = formData (hook w)
  ∧ initialDataRef (hook (step w (Mount h))) = initialDataRef (hook w).
Proof.
  unfold step. simpl. rewrite mountEffect_run.
  by destruct (isInitializedRef (hook w)).
Qed.

Lemma local_keeps_initialDataRef (w : World) (h : Host) (op : LocalOp) :
  initialDataRef (hook (step w (Local h op))) = initialDataRef (hook w).
Proof.
  unfold step. destruct op; simpl.
  - by rewrite updateField_run.
  - by rewrite updateFormData_run.
  - by rewrite completeTask_run.
  - by rewrite resetForm_run.
Qed.

Lemma envelope_initialDataRef (w : World) (d : ActionCenterData.t) :
  initialDataRef (hook (step w (Envelope d)))
  = default (initialDataRef (hook w)) (ActionCenterData.data d).
Proof.
  unfold step. simpl. rewrite onTaskDetails_run. simpl.
  unfold afterData. by destruct (ActionCenterData.data d).
Qed.

Lemma envelope_taskData (w : World) (d : ActionCenterData.t) :
  taskData (hook (step w (Envelope d))) = Some d.
Proof.
  unfold step. simpl. rewrite onTaskDetails_run. simpl.
  unfold afterData. by destruct (ActionCenterData.data d).
Qed.

(** The baseline ref follows the envelopes of the session. *)
Lemma run_initialDataRef (evs : list Event) (w : World) :
  initialDataRef (hook (run evs w)) = lastBaseline (initialDataRef (hook w)) evs.
Proof.
  revert w. induction evs as [| ev evs IH]; intros w; [reflexivity |].
  rewrite run_cons, IH. destruct ev as [h | d | h op]; simpl.
  - by destruct (mount_keeps_state w h) as (_ & _ & ->).
  - by rewrite envelope_initialDataRef.
  - by rewrite local_keeps_initialDataRef.
Qed.

(** The task data is the envelope received last. *)
Lemma run_taskData (evs : list Event) (w : World) :
  taskData (hook (run evs w)) = lastEnvelope (taskData (hook w)) evs.
Proof.
  revert w. induction evs as [| ev evs IH]; intros w; [reflexivity |].
  rewrite run_cons, IH. destruct ev as [h | d | h op]; simpl.
  - by destruct (mount_keeps_state w h) as (-> & _).
  - by rewrite envelope_taskData.
  - by rewrite local_keeps_taskData.
Qed.

Lemma overlay_insert (base : ActionFormData) (k' : string) (v : JsValue)
    (writes : list (string * JsValue)) (k : string) :
  overlay (<[k' := v]> base) writes k = overlay base ((k', v) :: writes) k.
Proof.
  unfold overlay. simpl. destruct (lastWrite k writes); [reflexivity |].
  case_decide as Hk.
  - subst. apply lookup_insert_eq.
  - by apply lookup_insert_ne.
Qed.

Lemma run_fieldWrites (calls : list (Host * (string * JsValue))) (w : World) (k : string) :
  formData (hook (run (fieldWrites calls) w)) !! k
  = overlay (formData (hook w)) (map snd calls) k.
Proof.
  revert w. induction calls as [| [h [k' v]] calls IH]; intros w; [reflexivity |].
  unfold fieldWrites in *. simpl map. rewrite run_cons, IH.
  rewrite step_updateField, updateField_run. simpl.
  apply overlay_insert.
Qed.

Lemma run_fieldWrites_taskData (calls : list (Host * (string * JsValue))) (w : World) :
  taskData (hook (run (fieldWrites calls) w)) = taskData (hook w).
Proof.
  revert w. induction calls as [| [h [k' v]] calls IH]; intros w; [reflexivity |].
  unfold fieldWrites in *. simpl map. rewrite run_cons, IH.
  apply local_keeps_taskData.
Qed.

(** ** The page has seen the current state *)

Lemma step_observed_current (w : World) (ev : Event) :
  last (observed w) = Some (render (hook w)) →
  last (observed (step w ev)) = Some (render (hook (step w ev))).
Proof.
  intros Hw. unfold step.
  destruct ev as [h | d | h [fieldName value | data | outcome |]]; simpl.
  - rewrite mountEffect_run. by destruct (isInitializedRef (hook w)).
  - rewrite onTaskDetails_run. cbn [snd observed hook].
    rewrite app_assoc. apply last_snoc.
  - rewrite updateField_run. simpl. by rewrite last_snoc.
  - rewrite updateFormData_run. simpl. by rewrite last_snoc.
  - by rewrite completeTask_run.
  - rewrite resetForm_run. simpl. by rewrite last_snoc.
Qed.

(** Between the events of a session the view the page holds, and with it the
    state its callbacks have closed over, is the current state. *)
Lemma run_observed_current (env : UiPathConfig) (initialData : ActionFormData)
    (evs : list Event) :
  last (observed (run evs (initial env initialData)))
  = Some (render (hook (run evs (initial env initialData)))).
Proof.
  assert (Hinit : last (observed (initial env initialData))
                  = Some (render (hook (initial env initialData)))) by reflexivity.
  revert Hinit. generalize (initial env initialData).
  induction evs as [| ev evs IH]; intros w Hw; [exact Hw |].
  rewrite run_cons. apply IH. by apply step_observed_current.
Qed.

(** ** The mount guard holds *)

Lemma sdkTrace_not_task_events (d : ActionCenterData.t) :
  List.filter isSubscribe (sdkTrace d) = [] ∧ List.filter isReady (sdkTrace d) = [].
Proof.
  unfold sdkTrace.
  by destruct (credentials d), (truthy (ActionCenterData.newToken d)).
Qed.

Lemma step_mount_budget (w : World) (ev : Event) :
  (subscriptions (step w ev) + mountBudget (step w ev) ≤ subscriptions w + mountBudget w)%nat
  ∧ (readySignals (step w ev) + mountBudget (step w ev) ≤ readySignals w + mountBudget w)%nat.
Proof.
  unfold subscriptions, readySignals, mountBudget, step.
  destruct ev as [h | d | h [fieldName value | data | outcome |]]; simpl.
  - rewrite mountEffect_run.
    destruct (isInitializedRef (hook w)) eqn:Hinit; simpl; [rewrite Hinit; lia |].
    rewrite !List.filter_app, !length_app.
    destruct (h GetTaskDetailsFromActionCenter), (h InitializeInActionCenter);
      simpl; lia.
  - rewrite onTaskDetails_run. simpl.
    rewrite !List.filter_app, !length_app. simpl.
    destruct (sdkTrace_not_task_events d) as [-> ->].
    unfold afterData. destruct (ActionCenterData.data d); simpl; lia.
  - rewrite updateField_run. simpl. rewrite !List.filter_app, !length_app. simpl. lia.
  - rewrite updateFormData_run. simpl. rewrite !List.filter_app, !length_app. simpl. lia.
  - rewrite completeTask_run. simpl. rewrite !List.filter_app, !length_app.
    destruct (h _); simpl; lia.
  - rewrite resetForm_run. simpl. rewrite !List.filter_app, !length_app. simpl. lia.
Qed.

Lemma run_mount_budget (evs : list Event) (w : World) :
  (subscriptions (run evs w) + mountBudget (run evs w) ≤ subscriptions w + mountBudget w)%nat
  ∧ (readySignals (run evs w) + mountBudget (run evs w) ≤ readySignals w + mountBudget w)%nat.
Proof.
  revert w. induction evs as [| ev evs IH]; intros w; [simpl; lia |].
  rewrite run_cons.
  destruct (IH (step w ev)) as [IHs IHr], (step_mount_budget w ev) as [Hs Hr]. lia.
Qed.

(** * Properties of the protocol *)

(** ** C9: the mount effect reaches the host once *)

Lemma mount_after_mount (w : World) (h1 h2 : Host) :
  step (step w (Mount h1)) (Mount h2) = step w (Mount h1).
Proof.
  unfold step. simpl. rewrite (mountEffect_run h2), (mountEffect_run h1).
  destruct (isInitializedRef (hook w)) eqn:Hinit; simpl; [by rewrite Hinit | done].
Qed.

(** C9.  The session-start step is idempotent.  In every session, whatever
    events occur and however often the mount effect runs, the envelope
    subscription is registered at most once and the ready signal is sent at
    most once; and a run of the mount effect that follows an earlier run
    changes nothing at all. *)
Theorem mount_effect_runs_once (env : UiPathConfig) (initialData : ActionFormData)
    (evs : list Event) (w : World) (h1 h2 : Host) :
  (subscriptions (run evs (initial env initialData)) ≤ 1)%nat
  ∧ (readySignals (run evs (initial env initialData)) ≤ 1)%nat
  ∧ step (step w (Mount h1)) (Mount h2) = step w (Mount h1).
Proof.
  destruct (run_mount_budget evs (initial env initialData)) as [Hs Hr].
  change (subscriptions (initial env initialData)) with 0 in Hs.
  change (readySignals (initial env initialData)) with 0 in Hr.
  change (mountBudget (initial env initialData)) with 1 in Hs, Hr.
  split; [lia |]. split; [lia |]. apply mount_after_mount.
Qed.

(** With a host present the first run does register and signal, so the bound
    is reached. *)
Example mount_twice_connected :
  trace (run [Mount connected; Mount connected] (initial defaultEnv sarah))
  = [Called GetTaskDetailsFromActionCenter false;
     Called InitializeInActionCenter false;
     ConsoleLog "[Action Context] Initialized - waiting for Action Center data"].
Proof. reflexivity. Qed.

(** ** C3: a sequence of field writes *)

Lemma run_mounts_keep (hs : list Host) (w : World) :
  taskData (hook (run (map Mount hs) w)) = taskData (hook w)
  ∧ formData (hook (run (map Mount hs) w)) = formData (hook w).
Proof.
  revert w. induction hs as [| h hs IH]; intros w; [done |].
  simpl map. rewrite run_cons.
  destruct (IH (step w (Mount h))) as [-> ->].
  by destruct (mount_keeps_state w h) as (-> & -> & _).
Qed.

(** C3.  After any finite sequence of [updateField] calls on a fresh session
    (the mount effect having run any number of times, the host answering
    each notification as it likes), the value of every key in the snapshot is
    the value last written to that key by the sequence, or the default
    snapshot's value when the sequence never wrote it; [isReadOnly] is false
    throughout such a session. *)
Theorem updateField_sequence_overlay (env : UiPathConfig) (initialData : ActionFormData)
    (mounts : list Host) (calls : list (Host * (string * JsValue))) (k : string) :
  formData (hook (run (map Mount mounts ++ fieldWrites calls) (initial env initialData))) !! k
  = overlay initialData (map snd calls) k
  ∧ isReadOnly (hook (run (map Mount mounts ++ fieldWrites calls) (initial env initialData)))
    = false.
Proof.
  rewrite run_app. split.
  - rewrite run_fieldWrites.
    by destruct (run_mounts_keep mounts (initial env initialData)) as [_ ->].
  - unfold isReadOnly, render. simpl.
    rewrite run_fieldWrites_taskData.
    by destruct (run_mounts_keep mounts (initial env initialData)) as [-> _].
Qed.

(** Scenario A: no host connects, the edit of [comments] is in the snapshot
    and the flag stays false. *)
Example scenario_A :
  formData (hook (run [Mount preview; Local preview (UpdateField "comments" (JString "ok"))]
                      (initial defaultEnv sarah)))
  = <[ "comments" := JString "ok" ]> sarah
  ∧ hasActionCenterData
      (hook (run [Mount preview; Local preview (UpdateField "comments" (JString "ok"))]
                 (initial defaultEnv sarah)))
    = false.
Proof. split; reflexivity. Qed.

(** ** C5: completing a task *)

(** C5, as stated, fails: the snapshot sent is the one of the render the
    callback was created in, not the current one.  A handler that writes
    [reviewerComments] and then completes the task sends the snapshot from
    before the write, although the hook already holds the written one. *)
Lemma completeTask_sends_rendered_snapshot :
  formData (hook (run [Mount connected] (initial defaultEnv sarah))) = sarah
  ∧ sarah !! "reviewerComments" = None
  ∧ formData
      (hook (snd (writeThenComplete
                    (hook (run [Mount connected] (initial defaultEnv sarah)))
                    connected "reviewerComments" (JString "ok") "Approve"
                    (run [Mount connected] (initial defaultEnv sarah)))))
    !! "reviewerComments"
    = Some (JString "ok")
  ∧ completions
      (trace (snd (writeThenComplete
                     (hook (run [Mount connected] (initial defaultEnv sarah)))
                     connected "reviewerComments" (JString "ok") "Approve"
                     (run [Mount connected] (initial defaultEnv sarah)))))
    = [("Approve", sarah)].
Proof. repeat split. Qed.

(** C5, amended.  [completeTask(outcome)] calls the host with the outcome and
    the snapshot of the render the callback was created in.  When that call
    throws, the exception is caught and the fallback runs: one alert,
    carrying the same outcome and the same snapshot.  When it does not throw
    there is no alert.  Either way the operation completes normally and
    leaves the hook's state as it was.  Called as an event of its own, the
    callback is the one of the latest render and the snapshot it sends is
    the current one. *)
Theorem completeTask_fallback (h : Host) (renderedFormData : ActionFormData)
    (outcome : string) (w : World) :
  fst (completeTask h renderedFormData outcome w) = Normal ()
  ∧ hook (snd (completeTask h renderedFormData outcome w)) = hook w
  ∧ trace (snd (completeTask h renderedFormData outcome w))
    = (trace w
       ++ [ConsoleLog "[Action Context] Completing task with outcome:";
           Called (CompleteTask outcome renderedFormData)
                  (h (CompleteTask outcome renderedFormData))]
       ++ (if h (CompleteTask outcome renderedFormData)
           then [ConsoleLog "[Action Context] Task complete (preview):";
                 Alert outcome renderedFormData]
           else []))%list
  ∧ length (List.filter isAlert (trace (snd (completeTask h renderedFormData outcome w))))
    = (length (List.filter isAlert (trace w))
       + (if h (CompleteTask outcome renderedFormData) then 1 else 0))%nat
  ∧ step w (Local h (CompleteTaskOp outcome))
    = snd (completeTask h (formData (hook w)) outcome w).
Proof.
  rewrite completeTask_run. simpl. repeat split.
  rewrite !List.filter_app, !length_app.
  destruct (h (CompleteTask outcome renderedFormData)); reflexivity.
Qed.

(** The same for every handler of that shape: the key is written, and the
    completion carries the snapshot of the render. *)
Lemma writeThenComplete_run (rendered : HookState) (h : Host) (fieldName : string)
    (value : JsValue) (outcome : string) (w : World) :
  formData (hook (snd (writeThenComplete rendered h fieldName value outcome w)))
  = <[fieldName := value]> (formData (hook w))
  ∧ completions (trace (snd (writeThenComplete rendered h fieldName value outcome w)))
    = (completions (trace w) ++ [(outcome, formData rendered)])%list.
Proof.
  unfold writeThenComplete. simpl runLocal.
  unfold mbind, Js_bind. rewrite updateField_run. cbn [fst snd].
  rewrite completeTask_run. cbn [fst snd hook trace formData].
  split; [reflexivity |].
  unfold completions. rewrite !omap_app. cbn [omap completionOf].
  by destruct (h (CompleteTask _ _)); cbn; rewrite ?app_nil_r.
Qed.

(** Scenario D: no host, outcome "Approve". *)
Example scenario_D :
  trace (run [Mount preview; Local preview (CompleteTaskOp "Approve")]
             (initial defaultEnv sarah))
  = [Called GetTaskDetailsFromActionCenter true;
     ConsoleError "[Action Context] Failed to initialize:";
     ConsoleLog "[Action Context] Completing task with outcome:";
     Called (CompleteTask "Approve" sarah) true;
     ConsoleLog "[Action Context] Task complete (preview):";
     Alert "Approve" sarah].
Proof. reflexivity. Qed.

(** ** C1: the order of the state changes made for an envelope *)

(** C1.  The callback sets the flag whether or not the envelope carries
    [data], against its own comment (the flag is set last so that the form
    data is updated first) and the documented meaning of the flag.  After a
    first envelope that only marks the task read-only, the hook shows
    [hasActionCenterData = true] together with the caller's default
    snapshot. *)
Lemma flag_true_over_default_snapshot :
  Result.hasActionCenterData
    (render (hook (run [Mount connected; Envelope readOnlyNotice] (initial defaultEnv sarah))))
  = true
  ∧ Result.formData
      (render (hook (run [Mount connected; Envelope readOnlyNotice] (initial defaultEnv sarah))))
    = formData (hook (initial defaultEnv sarah))
  ∧ formData (hook (initial defaultEnv sarah)) !! "patientName"
    = Some (JString "Sarah Johnson").
Proof. repeat split. Qed.

Lemma earlierViews_flag (d : ActionCenterData.t) (s : HookState) :
  Forall (λ v, Result.hasActionCenterData v = hasActionCenterData s) (earlierViews d s).
Proof.
  unfold earlierViews. apply Forall_app. split.
  - repeat constructor.
  - destruct (ActionCenterData.data d); repeat constructor.
Qed.

(** The order of the state changes is as the callback's comment says, for
    every envelope: the flag is set by the last state change, the views
    committed before it all show the flag as it was, and the view that
    follows it is the final one.  In that final view the task data is the
    envelope and the snapshot is the envelope's [data] when the envelope
    carries data; when it carries none the snapshot is the one from before
    the envelope. *)
Theorem onTaskDetails_flag_last (d : ActionCenterData.t) (w : World) :
  ∃ earlier : list Result.t,
    observed (step w (Envelope d))
    = (observed w ++ earlier ++ [render (hook (step w (Envelope d)))])%list
    ∧ Forall (λ v, Result.hasActionCenterData v = hasActionCenterData (hook w)) earlier
    ∧ hasActionCenterData (hook (step w (Envelope d))) = true
    ∧ taskData (hook (step w (Envelope d))) = Some d
    ∧ formData (hook (step w (Envelope d)))
      = default (formData (hook w)) (ActionCenterData.data d).
Proof.
  exists (earlierViews d (hook w)).
  unfold step. simpl. rewrite onTaskDetails_run. simpl.
  split; [reflexivity |]. split; [apply earlierViews_flag |].
  unfold afterData. by destruct (ActionCenterData.data d).
Qed.

(** Scenario B: the host pushes data, then one field is edited. *)
Example scenario_B :
  formData (hook (run [Mount connected;
                       Envelope (ActionCenterData.mk None (Some alice) (Some false)
                                   None None None None None None None None None)]
                      (initial defaultEnv sarah)))
  = alice
  ∧ formData (hook (run [Mount connected;
                         Envelope (ActionCenterData.mk None (Some alice) (Some false)
                                     None None None None None None None None None);
                         Local connected (UpdateField "reviewerComments" (JString "ok"))]
                        (initial defaultEnv sarah)))
    = <[ "reviewerComments" := JString "ok" ]> alice.
Proof. split; reflexivity. Qed.

(** ** C2: writes while the task is read-only *)

(** C2, as stated, fails: the task is read-only, yet [updateField] and
    [updateFormData] change the snapshot and notify the host. *)
Lemma updateField_while_readOnly :
  isReadOnly (hook (run [Mount connected; Envelope readOnlyTask] (initial defaultEnv sarah)))
  = true
  ∧ formData (hook (run [Mount connected; Envelope readOnlyTask]
                        (initial defaultEnv sarah))) !! "reviewerComments"
    = Some (JString "")
  ∧ formData (hook (run [Mount connected; Envelope readOnlyTask;
                         Local connected (UpdateField "reviewerComments" (JString "ok"))]
                        (initial defaultEnv sarah))) !! "reviewerComments"
    = Some (JString "ok")
  ∧ last (trace (run [Mount connected; Envelope readOnlyTask;
                      Local connected (UpdateField "reviewerComments" (JString "ok"))]
                     (initial defaultEnv sarah)))
    = Some (Called (DataChanged (<[ "reviewerComments" := JString "ok" ]> alice)) false)
  ∧ formData (hook (run [Mount connected; Envelope readOnlyTask;
                         Local connected (UpdateFormData {[ "patientName" := JString "Bob" ]})]
                        (initial defaultEnv sarah))) !! "patientName"
    = Some (JString "Bob").
Proof. repeat split. Qed.

(** C2, amended.  [updateField] and [updateFormData] have no read-only
    guard.  In every state, read-only or not, [updateField] sets the one key
    in the snapshot, [updateFormData] overlays the partial snapshot on it,
    and each attempts one data-changed notification carrying the full updated
    snapshot; neither changes [isReadOnly]. *)
Theorem updates_are_unguarded (h : Host) (w : World) (fieldName : string)
    (value : JsValue) (data : ActionFormData) :
  formData (hook (step w (Local h (UpdateField fieldName value))))
  = <[fieldName := value]> (formData (hook w))
  ∧ trace (step w (Local h (UpdateField fieldName value)))
    = (trace w
       ++ [Called (DataChanged (<[fieldName := value]> (formData (hook w))))
                  (h (DataChanged (<[fieldName := value]> (formData (hook w)))))])%list
  ∧ isReadOnly (hook (step w (Local h (UpdateField fieldName value))))
    = isReadOnly (hook w)
  ∧ formData (hook (step w (Local h (UpdateFormData data))))
    = data ∪ formData (hook w)
  ∧ trace (step w (Local h (UpdateFormData data)))
    = (trace w
       ++ [Called (DataChanged (data ∪ formData (hook w)))
                  (h (DataChanged (data ∪ formData (hook w))))])%list
  ∧ isReadOnly (hook (step w (Local h (UpdateFormData data))))
    = isReadOnly (hook w).
Proof.
  unfold step. simpl. rewrite updateField_run, updateFormData_run. by simpl.
Qed.

(** Scenario C: a later envelope marks the task read-only and carries no
    data; the snapshot is unchanged by it. *)
Example scenario_C :
  formData (hook (run [Mount connected;
                       Envelope (ActionCenterData.mk None (Some alice) (Some false)
                                   None None None None None None None None None);
                       Envelope readOnlyNotice]
                      (initial defaultEnv sarah)))
  = alice
  ∧ isReadOnly (hook (run [Mount connected;
                           Envelope (ActionCenterData.mk None (Some alice) (Some false)
                                       None None None None None None None None None);
                           Envelope readOnlyNotice]
                          (initial defaultEnv sarah)))
    = true.
Proof. split; reflexivity. Qed.

(** ** C4: resetting the form *)

(** C4.  In every session, [resetForm] sets the snapshot to the data of the
    last envelope that carried data, or to the caller's default when no such
    envelope has arrived, and sends one data-changed notification with that
    same baseline; it completes normally. *)
Theorem resetForm_restores_baseline (env : UiPathConfig) (initialData : ActionFormData)
    (evs : list Event) (h : Host) :
  fst (resetForm h (run evs (initial env initialData))) = Normal ()
  ∧ formData (hook (step (run evs (initial env initialData)) (Local h ResetForm)))
    = lastBaseline initialData evs
  ∧ trace (step (run evs (initial env initialData)) (Local h ResetForm))
    = (trace (run evs (initial env initialData))
       ++ [Called (DataChanged (lastBaseline initialData evs))
                  (h (DataChanged (lastBaseline initialData evs)))])%list.
Proof.
  unfold step. simpl. rewrite resetForm_run. simpl.
  rewrite run_initialDataRef. by simpl.
Qed.

Lemma lastBaseline_app (baseline : ActionFormData) (evs1 evs2 : list Event) :
  lastBaseline baseline (evs1 ++ evs2) = lastBaseline (lastBaseline baseline evs1) evs2.
Proof.
  revert baseline. induction evs1 as [| [h | d | h op] evs1 IH]; intros baseline; simpl; auto.
Qed.

(** Reading [lastBaseline]: once an envelope with data has arrived, later
    mount effects and local operations do not move the baseline away from
    that data. *)
Lemma lastBaseline_after_data (baseline fd : ActionFormData) (evs : list Event)
    (d : ActionCenterData.t) (xs : list (Host * option LocalOp)) :
  ActionCenterData.data d = Some fd →
  lastBaseline baseline (evs ++ Envelope d :: withoutHost xs) = fd.
Proof.
  intros Hd. rewrite lastBaseline_app. simpl. rewrite Hd. simpl.
  generalize fd. induction xs as [| [h [op|]] xs IH]; simpl; auto.
Qed.

(** The baseline is the host's, not the first default, once data arrived,
    whatever was edited since. *)
Example reset_after_host_data :
  formData (hook (run [Mount connected; Envelope readOnlyTask;
                       Local connected (UpdateField "patientName" (JString "Bob"));
                       Local connected ResetForm]
                      (initial defaultEnv sarah)))
  = alice.
Proof. reflexivity. Qed.

(** ** C6: credentials and token refresh *)

(** Two envelopes.  One carries a full credential set and a [newToken]: the
    client is constructed from the credentials and the token update goes to
    the new client.  The other carries a credential set whose token is the
    empty string: no client is constructed. *)
Example envelope_credentials_examples :
  sdkCalls (run [Mount connected; Envelope loginAndRefresh] (initial defaultEnv sarah))
  = [NewUiPath {| cfg_baseUrl := "https://alpha.uipath.com"; cfg_orgName := "acme";
                  cfg_tenantName := "prod"; cfg_secret := "t0" |};
     SdkUpdateToken "t1"]
  ∧ uipath (run [Mount connected] (initial defaultEnv sarah))
    = {| sdk := {| config := defaultEnv; tokenUpdates := [] |};
         sdkInitialized := false |}
  ∧ uipath (run [Mount connected; Envelope loginAndRefresh] (initial defaultEnv sarah))
    = {| sdk := {| config := {| cfg_baseUrl := "https://alpha.uipath.com";
                                cfg_orgName := "acme"; cfg_tenantName := "prod";
                                cfg_secret := "t0" |};
                   tokenUpdates := ["t1"] |};
         sdkInitialized := true |}
  ∧ ActionCenterData.token blankToken = Some ""
  ∧ sdkCalls (run [Mount connected; Envelope blankToken] (initial defaultEnv sarah)) = [].
Proof. repeat split. Qed.

Lemma credentials_spec (d : ActionCenterData.t) (c : UiPathConfig) :
  credentials d = Some c ↔
  ActionCenterData.baseUrl d = Some (cfg_baseUrl c) ∧ cfg_baseUrl c ≠ ""
  ∧ ActionCenterData.orgName d = Some (cfg_orgName c) ∧ cfg_orgName c ≠ ""
  ∧ ActionCenterData.tenantName d = Some (cfg_tenantName c) ∧ cfg_tenantName c ≠ ""
  ∧ ActionCenterData.token d = Some (cfg_secret c) ∧ cfg_secret c ≠ "".
Proof.
  unfold credentials. destruct c as [b o t k]. simpl. split.
  - destruct (ActionCenterData.baseUrl d), (ActionCenterData.orgName d),
      (ActionCenterData.tenantName d), (ActionCenterData.token d); try discriminate.
    case_decide; [| discriminate]. intros [= -> -> -> ->]. tauto.
  - intros (-> & Hb & -> & Ho & -> & Ht & -> & Hk).
    case_decide; [reflexivity | tauto].
Qed.

Lemma refreshedTokens_spec (d : ActionCenterData.t) :
  refreshedTokens d
  = match ActionCenterData.newToken d with
    | Some t => if decide (t = "") then [] else [t]
    | None => []
    end.
Proof.
  unfold refreshedTokens, truthy.
  destruct (ActionCenterData.newToken d) as [t|]; [| reflexivity].
  by destruct (decide (t = "")).
Qed.

(** C6.  For every received envelope: a client is constructed, once and with
    the envelope's credentials, exactly when [baseUrl], [orgName],
    [tenantName] and [token] are all present and not empty; otherwise none
    is constructed.  A present, non-empty [newToken] is passed to
    [updateToken] once, after any construction.  So without a full
    credential set the existing client keeps its configuration, the module's
    initialised flag is unchanged, and the client only receives the refreshed
    token; with a full set the client is replaced, the flag is true, and the
    refreshed token goes to the new client. *)
Theorem envelope_credentials (d : ActionCenterData.t) (w : World) :
  sdkCalls (step w (Envelope d))
  = (sdkCalls w
     ++ match credentials d with
        | Some c => [NewUiPath c]
        | None => []
        end
     ++ map SdkUpdateToken (refreshedTokens d))%list
  ∧ match credentials d with
    | Some c =>
        uipath (step w (Envelope d))
        = {| sdk := {| config := c; tokenUpdates := refreshedTokens d |};
             sdkInitialized := true |}
    | None =>
        config (sdk (uipath (step w (Envelope d)))) = config (sdk (uipath w))
        ∧ sdkInitialized (uipath (step w (Envelope d))) = sdkInitialized (uipath w)
        ∧ tokenUpdates (sdk (uipath (step w (Envelope d))))
          = (tokenUpdates (sdk (uipath w)) ++ refreshedTokens d)%list
    end
  ∧ (∀ c : UiPathConfig,
       credentials d = Some c ↔
       ActionCenterData.baseUrl d = Some (cfg_baseUrl c) ∧ cfg_baseUrl c ≠ ""
       ∧ ActionCenterData.orgName d = Some (cfg_orgName c) ∧ cfg_orgName c ≠ ""
       ∧ ActionCenterData.tenantName d = Some (cfg_tenantName c) ∧ cfg_tenantName c ≠ ""
       ∧ ActionCenterData.token d = Some (cfg_secret c) ∧ cfg_secret c ≠ "")
  ∧ refreshedTokens d
    = match ActionCenterData.newToken d with
      | Some t => if decide (t = "") then [] else [t]
      | None => []
      end.
Proof.
  split; [| split; [| split; [apply credentials_spec | apply refreshedTokens_spec]]].
  - unfold sdkCalls, step. simpl. rewrite onTaskDetails_run. simpl.
    rewrite List.filter_app. f_equal. simpl.
    unfold sdkTrace, refreshedTokens.
    by destruct (credentials d), (truthy (ActionCenterData.newToken d)).
  - unfold step. simpl. rewrite onTaskDetails_run. simpl.
    unfold sdkAfter. by destruct (credentials d).
Qed.

(** A refreshed token alone: the client built from the environment stays. *)
Example token_refresh_only :
  uipath (run [Mount connected;
               Envelope (ActionCenterData.mk None None None None None None None
                           None None None None (Some "t1"))]
              (initial defaultEnv sarah))
  = {| sdk := {| config := defaultEnv; tokenUpdates := ["t1"] |};
       sdkInitialized := false |}.
Proof. reflexivity. Qed.

(** ** C7: the numeric control *)

(** C7, as stated, fails: non-numeric text is not refused.  An input of type
    number reports text that is not a number as the empty text; the handler
    passes [undefined] on, and a field bound to [updateField] then holds
    [undefined] instead of its previous value. *)
Lemma nonnumeric_text_clears_value :
  NumberControl_onChange true "" = [JUndefined]
  ∧ NumberControl_onChange false "" = [JUndefined]
  ∧ formData (hook (initial defaultEnv {[ "amount" := JNumber (Finite false 5 0) ]}))
      !! "amount"
    = Some (JNumber (Finite false 5 0))
  ∧ formData
      (hook (run (Mount preview
                  :: map (λ v, Local preview (UpdateField "amount" v))
                         (NumberControl_onChange true ""))
                 (initial defaultEnv {[ "amount" := JNumber (Finite false 5 0) ]})))
      !! "amount"
    = Some JUndefined
  ∧ formData
      (hook (run (Mount preview
                  :: map (λ v, Local preview (UpdateField "amount" v))
                         (NumberControl_onChange false ""))
                 (initial defaultEnv {[ "amount" := JNumber (Finite false 5 0) ]})))
      !! "amount"
    = Some JUndefined.
Proof. repeat split. Qed.

Lemma parseInt_whole (val : string) :
  Parse.parseInt val = NaN
  ∨ Parse.parseInt val = Infinity false
  ∨ Parse.parseInt val = Infinity true
  ∨ isWhole (Parse.parseInt val) = true.
Proof.
  unfold Parse.parseInt.
  destruct (Parse.takeSign (Parse.skipWhiteSpace val)) as [neg body].
  destruct (Parse.takeDigits body 0 0) as [[v [| n]] rest]; [by left |].
  right. unfold Binary64.ofDecimal. simpl Z.leb. cbv iota.
  change (Z.to_N 0) with 0%N. rewrite N.pow_0_r, N.mul_1_r.
  destruct (ofRatio_whole neg v) as [-> | Hw]; [destruct neg |]; auto.
Qed.

(** C7, amended.  The handler of the numeric control passes exactly one value
    to [onChange] for every text the input element reports, so it never
    refuses an update and never throws.  The empty text, which is what the
    element reports for text that is not a number, gives [undefined]; any
    other text gives the number read by [parseInt] in an integer field,
    which is a whole number, an infinity or [NaN], and the number read by
    [parseFloat] otherwise.  "3.7" gives 3 in an integer field and the
    binary64 number 3.7, which is not whole, elsewhere. *)
Theorem NumberControl_emits_once (isInteger : bool) (val : string) :
  length (NumberControl_onChange isInteger val) = 1%nat
  ∧ NumberControl_onChange isInteger "" = [JUndefined]
  ∧ match NumberControl_onChange true val with
    | [JUndefined] => val = ""
    | [JNumber n] =>
        val ≠ "" ∧ n = Parse.parseInt val
        ∧ (n = NaN ∨ n = Infinity false ∨ n = Infinity true ∨ isWhole n = true)
    | _ => False
    end
  ∧ match NumberControl_onChange false val with
    | [JUndefined] => val = ""
    | [JNumber n] => val ≠ "" ∧ n = Parse.parseFloat val
    | _ => False
    end
  ∧ NumberControl_onChange true "3.7" = [JNumber (Finite false 3 0)]
  ∧ NumberControl_onChange false "3.7" = [JNumber (Finite false 4165829655317709 (-50))]
  ∧ isWhole (Finite false 4165829655317709 (-50)) = false.
Proof.
  unfold NumberControl_onChange.
  split; [by case_decide |]. split; [reflexivity |].
  split; [case_decide; [done | split; [done | split; [done | apply parseInt_whole]]] |].
  split; [by case_decide |].
  repeat split.
Qed.

(** ** C8: after completion *)

(** C8, as stated, fails: the completion call succeeds, the form is not
    read-only afterwards, and the next [updateField] changes the snapshot. *)
Lemma updateField_after_completion :
  trace (run [Mount connected; Local connected (CompleteTaskOp "Correct")]
             (initial defaultEnv alice))
  = [Called GetTaskDetailsFromActionCenter false;
     Called InitializeInActionCenter false;
     ConsoleLog "[Action Context] Initialized - waiting for Action Center data";
     ConsoleLog "[Action Context] Completing task with outcome:";
     Called (CompleteTask "Correct" alice) false]
  ∧ isReadOnly (hook (run [Mount connected; Local connected (CompleteTaskOp "Correct")]
                          (initial defaultEnv alice)))
    = false
  ∧ formData (hook (run [Mount connected; Local connected (CompleteTaskOp "Correct")]
                        (initial defaultEnv alice))) !! "reviewerComments"
    = Some (JString "")
  ∧ formData (hook (run [Mount connected; Local connected (CompleteTaskOp "Correct");
                         Local connected (UpdateField "reviewerComments" (JString "late"))]
                        (initial defaultEnv alice))) !! "reviewerComments"
    = Some (JString "late").
Proof. repeat split. Qed.

(** C8, amended.  A completion call, whether or not the host accepts it,
    changes nothing in the hook's state: the snapshot and [isReadOnly] are as
    before.  An [updateField] that follows it writes its key into the
    snapshot as usual and still leaves [isReadOnly] as it was. *)
Theorem completion_leaves_form_writable (h1 h2 : Host) (outcome fieldName : string)
    (value : JsValue) (w : World) :
  hook (step w (Local h1 (CompleteTaskOp outcome))) = hook w
  ∧ isReadOnly (hook (step w (Local h1 (CompleteTaskOp outcome)))) = isReadOnly (hook w)
  ∧ formData (hook (step (step w (Local h1 (CompleteTaskOp outcome)))
                         (Local h2 (UpdateField fieldName value))))
    = <[fieldName := value]> (formData (hook w))
  ∧ isReadOnly (hook (step (step w (Local h1 (CompleteTaskOp outcome)))
                           (Local h2 (UpdateField fieldName value))))
    = isReadOnly (hook w).
Proof.
  rewrite step_updateField, updateField_run, step_completeTask, completeTask_run.
  by simpl.
Qed.

(** ** C10: where [isReadOnly] comes from *)

Lemma lastEnvelope_withoutHost (xs : list (Host * option LocalOp))
    (latest : option ActionCenterData.t) :
  lastEnvelope latest (withoutHost xs) = latest.
Proof.
  induction xs as [| [h [op|]] xs IH]; simpl; auto.
Qed.

Lemma local_keeps_isReadOnly (w : World) (h : Host) (op : LocalOp) :
  isReadOnly (hook (step w (Local h op))) = isReadOnly (hook w).
Proof. unfold isReadOnly, render. simpl. by rewrite local_keeps_taskData. Qed.

(** C10.  In every session the exposed [isReadOnly] is the [isReadOnly]
    property of the envelope received last, read as false when that property
    is absent, and it is false when no envelope has been received; so it is
    false in every session without a host.  An envelope sets it to its own
    property; no local operation and no run of the mount effect changes
    it. *)
Theorem isReadOnly_from_last_envelope (env : UiPathConfig) (initialData : ActionFormData)
    (evs : list Event) (xs : list (Host * option LocalOp)) (w : World) (h : Host)
    (op : LocalOp) (d : ActionCenterData.t) :
  isReadOnly (hook (run evs (initial env initialData)))
  = match lastEnvelope None evs with
    | Some latest => default false (ActionCenterData.isReadOnly latest)
    | None => false
    end
  ∧ isReadOnly (hook (run (withoutHost xs) (initial env initialData))) = false
  ∧ isReadOnly (hook (step w (Envelope d))) = default false (ActionCenterData.isReadOnly d)
  ∧ isReadOnly (hook (step w (Local h op))) = isReadOnly (hook w)
  ∧ isReadOnly (hook (step w (Mount h))) = isReadOnly (hook w).
Proof.
  split; [| split; [| split; [| split]]].
  - unfold isReadOnly, render. simpl. by rewrite run_taskData.
  - unfold isReadOnly, render. simpl.
    by rewrite run_taskData, lastEnvelope_withoutHost.
  - unfold isReadOnly, render. simpl. by rewrite envelope_taskData.
  - apply local_keeps_isReadOnly.
  - unfold isReadOnly, render. simpl. by destruct (mount_keeps_state w h) as (-> & _).
Qed.

(** * Further properties *)

Lemma step_trace_uipath_local (w : World) (h : Host) (op : LocalOp) :
  uipath (step w (Local h op)) = uipath w.
Proof.
  unfold step. destruct op; simpl.
  - by rewrite updateField_run.
  - by rewrite updateFormData_run.
  - by rewrite completeTask_run.
  - by rewrite resetForm_run.
Qed.

Lemma step_uipath_mount (w : World) (h : Host) : uipath (step w (Mount h)) = uipath w.
Proof.
  unfold step. simpl. rewrite mountEffect_run. by destruct (isInitializedRef (hook w)).
Qed.

Lemma step_uipath_envelope (w : World) (d : ActionCenterData.t) :
  uipath (step w (Envelope d)) = sdkAfter d (uipath w).
Proof. unfold step. simpl. by rewrite onTaskDetails_run. Qed.

Lemma run_sdk_module (evs : list Event) (w : World) :
  config (sdk (uipath (run evs w)))
  = default (config (sdk (uipath w))) (lastCredentials None evs)
  ∧ sdkInitialized (uipath (run evs w))
    = match lastCredentials None evs with
      | Some _ => true
      | None => sdkInitialized (uipath w)
      end
  ∧ tokenUpdates (sdk (uipath (run evs w)))
    = tokensSinceConstruction (tokenUpdates (sdk (uipath w))) evs.
Proof.
  assert (Hgen : ∀ evs latest, lastCredentials latest evs
            = match lastCredentials None evs with Some c => Some c | None => latest end).
  { clear. induction evs as [| [h | d | h op] evs IH]; intros latest; simpl; auto.
    rewrite IH. rewrite (IH (match credentials d with Some c => Some c | None => None end)).
    destruct (lastCredentials None evs); [done |]. by destruct (credentials d). }
  revert w. induction evs as [| ev evs IH]; intros w; [done |].
  rewrite run_cons. destruct (IH (step w ev)) as (IHc & IHi & IHt).
  rewrite IHc, IHi, IHt. clear IH IHc IHi IHt.
  destruct ev as [h | d | h op]; simpl.
  - by rewrite step_uipath_mount.
  - rewrite step_uipath_envelope. rewrite (Hgen evs (match credentials d with Some c => Some c | None => None end)).
    unfold sdkAfter. destruct (credentials d), (lastCredentials None evs); done.
  - by rewrite step_trace_uipath_local.
Qed.

(** X1.  In every session, whatever the host does, every operation of the
    hook (the mount effect, the envelope callback, [updateField],
    [updateFormData], [completeTask], [resetForm]) completes normally: no
    failure of a host call escapes it. *)
Theorem hook_operations_never_throw (env : UiPathConfig) (initialData : ActionFormData)
    (evs : list Event) (ev : Event) :
  fst (handle ev (run evs (initial env initialData))) = Normal ().
Proof. apply handle_normal. Qed.

Lemma step_envelopeView (w : World) (ev : Event) :
  envelopeView (hook w) → envelopeView (hook (step w ev)).
Proof.
  unfold envelopeView, step.
  destruct ev as [h | d | h [fieldName value | data | outcome |]]; simpl.
  - rewrite mountEffect_run. by destruct (isInitializedRef (hook w)).
  - intros _. rewrite onTaskDetails_run. simpl. unfold afterData.
    by destruct (ActionCenterData.data d).
  - by rewrite updateField_run.
  - by rewrite updateFormData_run.
  - by rewrite completeTask_run.
  - by rewrite resetForm_run.
Qed.

Lemma run_envelopeView (evs : list Event) (w : World) :
  envelopeView (hook w) → envelopeView (hook (run evs w)).
Proof.
  revert w. induction evs as [| ev evs IH]; intros w Hw; [done |].
  rewrite run_cons. apply IH. by apply step_envelopeView.
Qed.

(** X2.  In every session [hasActionCenterData] is true exactly when an
    envelope has been received, which is exactly when [taskData] is not
    null; once true it is never reset. *)
Theorem flag_follows_envelopes (env : UiPathConfig) (initialData : ActionFormData)
    (evs : list Event) :
  hasActionCenterData (hook (run evs (initial env initialData)))
  = match lastEnvelope None evs with
    | Some _ => true
    | None => false
    end
  ∧ hasActionCenterData (hook (run evs (initial env initialData)))
    = match taskData (hook (run evs (initial env initialData))) with
      | Some _ => true
      | None => false
      end.
Proof.
  assert (Hv : envelopeView (hook (run evs (initial env initialData)))).
  { apply run_envelopeView. by unfold envelopeView. }
  unfold envelopeView in Hv.
  pose proof (run_taskData evs (initial env initialData)) as Ht.
  change (taskData (hook (initial env initialData))) with (@None ActionCenterData.t) in Ht.
  rewrite <- Ht.
  destruct (taskData (hook (run evs (initial env initialData)))); by destruct Hv as (-> & _).
Qed.

(** X3.  Theme and language are those of the envelope received last and of
    nothing else: the language is its [newLanguage], else its [language],
    else "en", and the theme is its [newTheme], else its [theme], else
    undefined.  So an envelope that names no language or theme does not keep
    the earlier ones.  Before any envelope they are "en" and [Light]. *)
Theorem theme_language_from_last_envelope (env : UiPathConfig)
    (initialData : ActionFormData) (evs : list Event) :
  language (hook (run evs (initial env initialData)))
  = match lastEnvelope None evs with
    | Some d => default "en" (nullish (ActionCenterData.newLanguage d)
                                      (ActionCenterData.language d))
    | None => "en"
    end
  ∧ theme (hook (run evs (initial env initialData)))
    = match lastEnvelope None evs with
      | Some d => nullish (ActionCenterData.newTheme d) (ActionCenterData.theme d)
      | None => Some Light
      end.
Proof.
  assert (Hv : envelopeView (hook (run evs (initial env initialData)))).
  { apply run_envelopeView. by unfold envelopeView. }
  unfold envelopeView in Hv.
  pose proof (run_taskData evs (initial env initialData)) as Ht.
  change (taskData (hook (initial env initialData))) with (@None ActionCenterData.t) in Ht.
  rewrite <- Ht.
  destruct (taskData (hook (run evs (initial env initialData))));
    by destruct Hv as (_ & -> & ->).
Qed.

(** X4.  After any session the SDK client is configured with the credentials
    of the last envelope that carried a full set, or from the environment
    when there was none; [isSDKInitialized] says whether there was one; and
    the client has received the refreshed tokens that arrived since it was
    constructed, in order. *)
Theorem sdk_module_after_session (env : UiPathConfig) (initialData : ActionFormData)
    (evs : list Event) :
  config (sdk (uipath (run evs (initial env initialData))))
  = default env (lastCredentials None evs)
  ∧ sdkInitialized (uipath (run evs (initial env initialData)))
    = match lastCredentials None evs with
      | Some _ => true
      | None => false
      end
  ∧ tokenUpdates (sdk (uipath (run evs (initial env initialData))))
    = tokensSinceConstruction [] evs.
Proof. apply (run_sdk_module evs (initial env initialData)). Qed.

(** X5.  Once [isSDKInitialized] is true it stays true, whatever happens
    next. *)
Theorem sdkInitialized_stays (evs : list Event) (w : World) :
  sdkInitialized (uipath w) = true →
  sdkInitialized (uipath (run evs w)) = true.
Proof.
  intros Hw. destruct (run_sdk_module evs w) as (_ & -> & _).
  by destruct (lastCredentials None evs).
Qed.

Lemma sdkInitialized_stays_witness :
  sdkInitialized (uipath (run [Mount connected; Envelope loginAndRefresh]
                              (initial defaultEnv sarah))) = true
  ∧ sdkInitialized
      (uipath (run [Envelope readOnlyNotice; Local preview (UpdateField "a" JNull)]
                   (run [Mount connected; Envelope loginAndRefresh]
                        (initial defaultEnv sarah)))) = true.
Proof.
  split; [reflexivity |]. apply sdkInitialized_stays. reflexivity.
Defined.

(** ** Partial updates *)

(** X6.  Two [updateFormData] calls leave the snapshot that one call with
    the second partial snapshot laid over the first leaves; a call with a
    single key is [updateField]; a call with no key leaves the snapshot as it
    is and still notifies the host once. *)
Theorem updateFormData_composes (h1 h2 h : Host) (w : World) (a b : ActionFormData)
    (fieldName : string) (value : JsValue) :
  formData (hook (step (step w (Local h1 (UpdateFormData a))) (Local h2 (UpdateFormData b))))
  = formData (hook (step w (Local h (UpdateFormData (b ∪ a)))))
  ∧ step w (Local h (UpdateFormData {[ fieldName := value ]}))
    = step w (Local h (UpdateField fieldName value))
  ∧ formData (hook (step w (Local h (UpdateFormData ∅)))) = formData (hook w)
  ∧ trace (step w (Local h (UpdateFormData ∅)))
    = (trace w ++ [Called (DataChanged (formData (hook w)))
                          (h (DataChanged (formData (hook w))))])%list.
Proof.
  unfold step. simpl. rewrite !updateFormData_run, updateField_run. simpl.
  rewrite <- insert_union_singleton_l, (left_id_L ∅ (∪)), (assoc_L (∪)). done.
Qed.

Lemma lastWrite_list_to_map (k : string) (l : list (string * JsValue)) :
  NoDup l.*1 → lastWrite k l = (list_to_map l : ActionFormData) !! k.
Proof.
  induction l as [| [k' v] l IH]; intros Hnd; simpl; [by rewrite lookup_empty |].
  apply NoDup_cons in Hnd as [Hk' Hnd]. rewrite (IH Hnd).
  destruct (decide (k' = k)) as [-> | Hne].
  - rewrite lookup_insert_eq.
    by rewrite (not_elem_of_list_to_map_1 (M := gmap string) l k Hk').
  - rewrite lookup_insert_ne by done. by destruct (list_to_map l !! k).
Qed.

(** X7.  One [updateFormData] leaves the snapshot that writing its entries
    one by one with [updateField] leaves. *)
Theorem updateFormData_as_field_writes (h : Host) (hs : string → JsValue → Host)
    (w : World) (data : ActionFormData) :
  formData (hook (run (fieldWrites (map (λ kv, (hs kv.1 kv.2, kv)) (map_to_list data))) w))
  = formData (hook (step w (Local h (UpdateFormData data)))).
Proof.
  apply map_eq. intros k. rewrite run_fieldWrites.
  unfold step. simpl. rewrite updateFormData_run. simpl.
  rewrite map_map. simpl. rewrite map_id.
  unfold overlay. rewrite lastWrite_list_to_map by apply NoDup_fst_map_to_list.
  rewrite list_to_map_to_list, lookup_union.
  by destruct (data !! k), (formData (hook w) !! k).
Qed.

(** ** Notifications *)

Lemma sdkTrace_no_dataChanged (d : ActionCenterData.t) :
  List.filter isDataChanged (sdkTrace d) = [].
Proof.
  unfold sdkTrace. by destruct (credentials d), (truthy (ActionCenterData.newToken d)).
Qed.

Lemma step_dataChangedCalls (w : World) (ev : Event) :
  dataChangedCalls (step w ev)
  = (dataChangedCalls w + (if isWrite ev then 1 else 0))%nat.
Proof.
  unfold dataChangedCalls, step.
  destruct ev as [h | d | h [fieldName value | data | outcome |]]; simpl.
  - rewrite mountEffect_run.
    destruct (isInitializedRef (hook w)); simpl; [lia |].
    rewrite List.filter_app, length_app.
    destruct (h GetTaskDetailsFromActionCenter), (h InitializeInActionCenter); simpl; lia.
  - rewrite onTaskDetails_run. simpl. rewrite List.filter_app, length_app. simpl.
    rewrite sdkTrace_no_dataChanged. simpl. lia.
  - rewrite updateField_run. simpl. by rewrite List.filter_app, length_app.
  - rewrite updateFormData_run. simpl. by rewrite List.filter_app, length_app.
  - rewrite completeTask_run. simpl. rewrite List.filter_app, length_app.
    destruct (h _); simpl; lia.
  - rewrite resetForm_run. simpl. by rewrite List.filter_app, length_app.
Qed.

Lemma step_without_write (w : World) (ev : Event) :
  isWrite ev = false → dataChangedCalls (step w ev) = dataChangedCalls w.
Proof. intros Hev. rewrite step_dataChangedCalls, Hev. lia. Qed.

(** X8.  Only [updateField], [updateFormData] and [resetForm] notify the
    host of changed data: over a stretch of a session with none of them the
    number of data-changed calls stays as it is.  Envelopes, completions and
    the mount effect never notify, so data pushed by the host is not echoed
    back. *)
Theorem only_writes_notify (evs : list Event) (w : World) :
  forallb (λ ev, negb (isWrite ev)) evs = true →
  dataChangedCalls (run evs w) = dataChangedCalls w.
Proof.
  revert w. induction evs as [| ev evs IH]; intros w Hevs; [done |].
  simpl in Hevs. apply andb_prop in Hevs as [Hev Hevs].
  rewrite run_cons, IH by done. apply step_without_write.
  by destruct (isWrite ev).
Qed.

Lemma only_writes_notify_witness :
  dataChangedCalls
    (run [Envelope readOnlyTask; Mount connected; Local preview (CompleteTaskOp "Approve")]
         (run [Mount connected; Local connected (UpdateField "reviewerComments" (JString "ok"))]
              (initial defaultEnv sarah)))
  = dataChangedCalls
      (run [Mount connected; Local connected (UpdateField "reviewerComments" (JString "ok"))]
           (initial defaultEnv sarah)).
Proof. apply only_writes_notify. reflexivity. Defined.

Lemma lastNotified_app (latest : option ActionFormData) (t1 t2 : list Effect) :
  lastNotified latest (t1 ++ t2) = lastNotified (lastNotified latest t1) t2.
Proof.
  revert latest. induction t1 as [| [[| | data | outcome data] b | | | | |] t1 IH];
    intros latest; simpl; auto.
Qed.

Lemma sdkTrace_lastNotified (d : ActionCenterData.t) (latest : option ActionFormData) :
  lastNotified latest (sdkTrace d) = latest.
Proof.
  unfold sdkTrace. by destruct (credentials d), (truthy (ActionCenterData.newToken d)).
Qed.

Lemma step_notified_current (w : World) (ev : Event) :
  keepsSnapshot ev = true →
  lastNotified None (trace w) = Some (formData (hook w)) →
  lastNotified None (trace (step w ev)) = Some (formData (hook (step w ev))).
Proof.
  intros Hev Hw. unfold step.
  destruct ev as [h | d | h [fieldName value | data | outcome |]]; simpl in *.
  - rewrite mountEffect_run.
    destruct (isInitializedRef (hook w)); simpl; [done |].
    rewrite lastNotified_app, Hw.
    by destruct (h GetTaskDetailsFromActionCenter), (h InitializeInActionCenter).
  - rewrite onTaskDetails_run. simpl. rewrite lastNotified_app, Hw. simpl.
    rewrite sdkTrace_lastNotified. unfold afterData.
    by destruct (ActionCenterData.data d).
  - rewrite updateField_run. simpl. by rewrite lastNotified_app.
  - rewrite updateFormData_run. simpl. by rewrite lastNotified_app.
  - rewrite completeTask_run. simpl. rewrite lastNotified_app, Hw. by destruct (h _).
  - rewrite resetForm_run. simpl. by rewrite lastNotified_app.
Qed.

Lemma run_snoc (evs : list Event) (ev : Event) (w : World) :
  run (evs ++ [ev]) w = step (run evs w) ev.
Proof. by rewrite run_app. Qed.

Lemma completions_after_completeTask (h : Host) (outcome : string) (w : World) :
  last (completions (trace (step w (Local h (CompleteTaskOp outcome)))))
  = Some (outcome, formData (hook w)).
Proof.
  rewrite step_completeTask, completeTask_run. cbn [snd trace].
  unfold completions. rewrite !omap_app. cbn [omap completionOf].
  destruct (h (CompleteTask _ _)); cbn [omap list_omap completionOf app];
    by rewrite ?app_nil_r, last_snoc.
Qed.

(** X9.  After a write or a reset, and for as long as no envelope brings new
    data, the snapshot the hook holds is the one carried by the last
    data-changed call; and a completion made then, as an event of its own,
    sends that same snapshot.  So the host is asked to complete the task with
    the data it was last notified of. *)
Theorem host_has_current_snapshot (w : World) (h h' : Host) (op : WriteOp)
    (evs : list Event) (outcome : string) :
  forallb keepsSnapshot evs = true →
  lastNotified None (trace (run (Local h (writeOp op) :: evs) w))
  = Some (formData (hook (run (Local h (writeOp op) :: evs) w)))
  ∧ ∃ data : ActionFormData,
      last (completions
              (trace (run ((Local h (writeOp op) :: evs) ++ [Local h' (CompleteTaskOp outcome)])
                          w)))
      = Some (outcome, data)
      ∧ lastNotified None (trace (run (Local h (writeOp op) :: evs) w)) = Some data.
Proof.
  intros Hevs.
  assert (Hstate : lastNotified None (trace (run (Local h (writeOp op) :: evs) w))
                   = Some (formData (hook (run (Local h (writeOp op) :: evs) w)))).
  { rewrite run_cons.
    assert (Hfirst : lastNotified None (trace (step w (Local h (writeOp op))))
                     = Some (formData (hook (step w (Local h (writeOp op)))))).
    { unfold step. destruct op; simpl.
      - rewrite updateField_run. simpl. by rewrite lastNotified_app.
      - rewrite updateFormData_run. simpl. by rewrite lastNotified_app.
      - rewrite resetForm_run. simpl. by rewrite lastNotified_app. }
    revert Hfirst. generalize (step w (Local h (writeOp op))). clear w.
    induction evs as [| ev evs IH]; intros w Hw; [done |].
    simpl in Hevs. apply andb_prop in Hevs as [Hev Hevs].
    rewrite run_cons. apply IH; [done |]. by apply step_notified_current. }
  split; [exact Hstate |].
  exists (formData (hook (run (Local h (writeOp op) :: evs) w))).
  split; [| exact Hstate].
  rewrite run_snoc. apply completions_after_completeTask.
Qed.

Lemma host_has_current_snapshot_witness :
  lastNotified None
    (trace (run [Local preview (writeOp (WriteField "reviewerComments" (JString "ok")));
                 Envelope readOnlyNotice]
                (run [Mount connected] (initial defaultEnv alice))))
  = Some (formData
            (hook (run [Local preview (writeOp (WriteField "reviewerComments" (JString "ok")));
                        Envelope readOnlyNotice]
                       (run [Mount connected] (initial defaultEnv alice)))))
  ∧ ∃ data : ActionFormData,
      last (completions
              (trace (run ([Local preview
                              (writeOp (WriteField "reviewerComments" (JString "ok")));
                            Envelope readOnlyNotice]
                           ++ [Local connected (CompleteTaskOp "Correct")])
                          (run [Mount connected] (initial defaultEnv alice)))))
      = Some ("Correct", data)
      ∧ lastNotified None
          (trace (run [Local preview (writeOp (WriteField "reviewerComments" (JString "ok")));
                       Envelope readOnlyNotice]
                      (run [Mount connected] (initial defaultEnv alice))))
        = Some data.
Proof. apply host_has_current_snapshot. reflexivity. Defined.

(** ** The ready signal *)

Lemma sdkTrace_not_registered (d : ActionCenterData.t) :
  List.filter isRegistered (sdkTrace d) = [].
Proof.
  unfold sdkTrace. by destruct (credentials d), (truthy (ActionCenterData.newToken d)).
Qed.

Lemma step_ready_registered (w : World) (ev : Event) :
  (readySignals w ≤ registrations w)%nat →
  (readySignals (step w ev) ≤ registrations (step w ev))%nat.
Proof.
  unfold readySignals, registrations, step.
  destruct ev as [h | d | h [fieldName value | data | outcome |]]; simpl.
  - rewrite mountEffect_run.
    destruct (isInitializedRef (hook w)); simpl; [done |].
    rewrite !List.filter_app, !length_app.
    destruct (h GetTaskDetailsFromActionCenter), (h InitializeInActionCenter);
      simpl; lia.
  - rewrite onTaskDetails_run. simpl.
    rewrite !List.filter_app, !length_app. simpl.
    destruct (sdkTrace_not_task_events d) as [_ ->].
    rewrite sdkTrace_not_registered. simpl. lia.
  - rewrite updateField_run. simpl. rewrite !List.filter_app, !length_app. simpl. lia.
  - rewrite updateFormData_run. simpl. rewrite !List.filter_app, !length_app. simpl. lia.
  - rewrite completeTask_run. simpl. rewrite !List.filter_app, !length_app.
    destruct (h _); simpl; lia.
  - rewrite resetForm_run. simpl. rewrite !List.filter_app, !length_app. simpl. lia.
Qed.

Lemma registered_are_subscriptions (t : list Effect) :
  (length (List.filter isRegistered t) ≤ length (List.filter isSubscribe t))%nat.
Proof.
  induction t as [| e t IH]; [done |].
  destruct e as [[| | data | outcome data] [|] | | | | |]; simpl; lia.
Qed.

(** X10.  The ready signal is sent only after the subscription call has
    returned: in every session there are at most as many ready signals as
    subscription calls that returned, which are among the subscription calls
    made. *)
Theorem ready_only_after_subscribed (env : UiPathConfig) (initialData : ActionFormData)
    (evs : list Event) :
  (readySignals (run evs (initial env initialData))
   ≤ registrations (run evs (initial env initialData)))%nat
  ∧ (registrations (run evs (initial env initialData))
     ≤ subscriptions (run evs (initial env initialData)))%nat.
Proof.
  split.
  - assert (Hinit : (readySignals (initial env initialData)
                     ≤ registrations (initial env initialData))%nat) by (cbv; lia).
    revert Hinit. generalize (initial env initialData).
    induction evs as [| ev evs IH]; intros w Hw; [done |].
    rewrite run_cons. apply IH. by apply step_ready_registered.
  - apply registered_are_subscriptions.
Qed.

Lemma orElse_nonempty (a : option string) (b : string) :
  b ≠ "" → SdkConfig.orElse a b ≠ "".
Proof.
  unfold SdkConfig.orElse, truthy. destruct a as [s|]; [| done].
  by destruct (decide (s = "")).
Qed.

Lemma orElse_empty (a : option string) :
  SdkConfig.orElse a "" = "" ↔ truthy a = None.
Proof.
  unfold SdkConfig.orElse, truthy. destruct a as [s|]; [| done].
  destruct (decide (s = "")); naive_solver.
Qed.

Lemma orElse_truthy (a : option string) :
  match truthy a with
  | Some s => SdkConfig.orElse a "" = s ∧ s ≠ ""
  | None => SdkConfig.orElse a "" = ""
  end.
Proof.
  unfold SdkConfig.orElse, truthy. destruct a as [s|]; [| done].
  by destruct (decide (s = "")).
Qed.

Lemma orElse_twice (a : option string) (b : string) :
  SdkConfig.orElse (Some (SdkConfig.orElse a "")) b = default b (truthy a).
Proof.
  unfold SdkConfig.orElse, truthy. destruct a as [s|]; [| done].
  destruct (decide (s = "")) as [-> | Hs]; simpl; [done |]. by case_decide.
Qed.

(** X11.  Whatever the environment, [createSDKConfig] returns a base URL
    that is not empty and credentials that are not empty: a secret, or a
    client id with a scope; the redirect URI of the latter is empty only if
    the page's origin is. *)
Theorem createSDKConfig_wellformed (env : SdkConfig.ImportMetaEnv) (origin : string) :
  SdkConfig.baseUrl (SdkConfig.createSDKConfig env origin) ≠ ""
  ∧ match SdkConfig.createSDKConfig env origin with
    | SdkConfig.WithSecret _ _ _ secret => secret ≠ ""
    | SdkConfig.WithOAuth _ _ _ clientId redirectUri scope =>
        clientId ≠ "" ∧ scope ≠ "" ∧ (redirectUri = "" → origin = "")
    end.
Proof.
  unfold SdkConfig.createSDKConfig.
  destruct (decide (SdkConfig.orElse (SdkConfig.VITE_UIPATH_ACCESS_TOKEN env) "" ≠ ""))
    as [Hsecret | _]; [split; [by apply orElse_nonempty | done] |].
  destruct (decide (SdkConfig.orElse (SdkConfig.VITE_UIPATH_CLIENT_ID env) "" ≠ ""
                    ∧ SdkConfig.orElse (SdkConfig.VITE_UIPATH_SCOPE env) "" ≠ ""))
    as [[Hclient Hscope] | _]; (split; [by apply orElse_nonempty |]); [| done].
  split; [done |]. split; [done |].
  unfold SdkConfig.orElse at 1. unfold truthy. by case_decide.
Qed.

(** X12.  [createSDKConfig] prefers an access token to OAuth settings.  With
    a token it returns the configuration the default client of
    [lib/uipath.ts] is built with, whatever the OAuth variables say; without
    one it returns the OAuth configuration when client id and scope are both
    set, redirecting to the configured URI or else to the page's origin, and
    otherwise the placeholder secret with organisation and tenant names that
    are not empty. *)
Theorem createSDKConfig_mode (env : SdkConfig.ImportMetaEnv) (origin : string) :
  match truthy (SdkConfig.VITE_UIPATH_ACCESS_TOKEN env),
        truthy (SdkConfig.VITE_UIPATH_CLIENT_ID env),
        truthy (SdkConfig.VITE_UIPATH_SCOPE env) with
  | Some token, _, _ =>
      SdkConfig.createSDKConfig env origin
      = SdkConfig.WithSecret (cfg_baseUrl (SdkConfig.defaultClient env))
          (cfg_orgName (SdkConfig.defaultClient env))
          (cfg_tenantName (SdkConfig.defaultClient env)) token
      ∧ cfg_secret (SdkConfig.defaultClient env) = token
  | None, Some clientId, Some scope =>
      SdkConfig.createSDKConfig env origin
      = SdkConfig.WithOAuth (cfg_baseUrl (SdkConfig.defaultClient env))
          (cfg_orgName (SdkConfig.defaultClient env))
          (cfg_tenantName (SdkConfig.defaultClient env)) clientId
          (default origin (truthy (SdkConfig.VITE_UIPATH_REDIRECT_URI env))) scope
  | None, _, _ =>
      ∃ orgName tenantName,
        SdkConfig.createSDKConfig env origin
        = SdkConfig.WithSecret (cfg_baseUrl (SdkConfig.defaultClient env))
            orgName tenantName "placeholder"
        ∧ orgName ≠ "" ∧ tenantName ≠ ""
  end.
Proof.
  pose proof (orElse_truthy (SdkConfig.VITE_UIPATH_ACCESS_TOKEN env)) as Htok.
  pose proof (orElse_truthy (SdkConfig.VITE_UIPATH_CLIENT_ID env)) as Hcid.
  pose proof (orElse_truthy (SdkConfig.VITE_UIPATH_SCOPE env)) as Hsc.
  unfold SdkConfig.createSDKConfig, SdkConfig.defaultClient. simpl.
  destruct (truthy (SdkConfig.VITE_UIPATH_ACCESS_TOKEN env)) as [token|].
  - destruct Htok as [-> Htok]. by case_decide.
  - rewrite Htok. case_decide; [done |].
    destruct (truthy (SdkConfig.VITE_UIPATH_CLIENT_ID env)) as [clientId|],
      (truthy (SdkConfig.VITE_UIPATH_SCOPE env)) as [scope|].
    + destruct Hcid as [-> Hcid], Hsc as [-> Hsc]. case_decide as Hc; [| tauto].
      by rewrite orElse_twice.
    + rewrite Hsc. case_decide as Hc; [by destruct Hc |]. eexists _, _.
      split; [done |]. split; by apply orElse_nonempty.
    + rewrite Hcid. case_decide as Hc; [by destruct Hc |]. eexists _, _.
      split; [done |]. split; by apply orElse_nonempty.
    + rewrite Hcid. case_decide as Hc; [by destruct Hc |]. eexists _, _.
      split; [done |]. split; by apply orElse_nonempty.
Qed.

(** ** The parsers on numerals *)








(** The numbers of the example above. *)
Example three_is_exact :
  Binary64.ofDecimal false (decimalValue 0 "3") 0 = Finite false 3 0
  ∧ Binary64.finite false (decimalValue 0 "3") 0 = Finite false 3 0.
Proof. split; reflexivity. Qed.


Lemma allDigits_app (ds fs : string) :
  allDigits ds = true → allDigits fs = true → allDigits (ds ++ fs) = true.
Proof.
  unfold allDigits. induction ds as [| c ds IH]; simpl; [done |].
  intros Hds Hfs. apply andb_prop in Hds as [Hc Hds]. rewrite Hc. simpl. by apply IH.
Qed.




(** The numbers of the example above: 12.50e1 is 125, and 3.7 is rounded. *)
Example decimal_field_values :
  NumberControl_onChange false ("12" ++ "." ++ "50" ++ "e1") = [JNumber (Finite false 125 0)]
  ∧ NumberControl_onChange false ("3" ++ "." ++ "7" ++ "")
    = [JNumber (Finite false 4165829655317709 (-50))].
Proof. split; reflexivity. Qed.



Lemma trimStart_no_visible (s : string) :
  hasVisibleChar s = false → Page.trimStart s = "".
Proof.
  unfold hasVisibleChar. induction s as [| c s IH]; simpl; [done |].
  destruct (Parse.isStrWhiteSpaceChar c) eqn:Hc; simpl; [done | discriminate].
Qed.

Lemma rev_app_visible (s acc : string) :
  hasVisibleChar (String.rev_app s acc) = hasVisibleChar s || hasVisibleChar acc.
Proof.
  unfold hasVisibleChar. revert acc. induction s as [| c s IH]; intros acc; simpl; [done |].
  rewrite IH. simpl. by destruct (Parse.isStrWhiteSpaceChar c), (existsb _ (list_ascii_of_string s)).
Qed.

Lemma trimStart_keeps_visible (s : string) :
  hasVisibleChar (Page.trimStart s) = hasVisibleChar s.
Proof.
  unfold hasVisibleChar. induction s as [| c s IH]; simpl; [done |].
  destruct (Parse.isStrWhiteSpaceChar c) eqn:Hc; simpl; [done | by rewrite Hc].
Qed.

Lemma trim_visible (s : string) :
  bool_decide (0 < String.length (Page.trim s))%nat = hasVisibleChar s.
Proof.
  assert (Hlen : ∀ t, hasVisibleChar t = true → (0 < String.length t)%nat).
  { intros [| c t]; [done | simpl; lia]. }
  unfold Page.trim, Page.trimEnd, String.rev.
  destruct (hasVisibleChar s) eqn:Hs.
  - apply bool_decide_eq_true. apply Hlen.
    rewrite rev_app_visible, trimStart_keeps_visible, rev_app_visible,
      trimStart_keeps_visible, Hs. done.
  - rewrite (trimStart_no_visible s Hs). done.
Qed.

(** X17.  For comments that are a string of ASCII text (where [trim] is
    modelled exactly), the decision tab's [isFormValid] holds exactly when
    the text has a character that is not white space: blank comments keep the
    outcome buttons disabled. *)
Theorem isFormValid_visible_text (formData : ActionFormData) (s : string) :
  asciiText s = true →
  formData !! "reviewerComments" = Some (JString s) →
  Page.isFormValid formData = Normal (hasVisibleChar s).
Proof.
  intros _ Hs. unfold Page.isFormValid. rewrite Hs. simpl.
  case_bool_decide as Hempty; simpl.
  - by subst.
  - by rewrite trim_visible.
Qed.

Lemma isFormValid_visible_text_witness :
  Page.isFormValid (<[ "reviewerComments" := JString "  	 " ]> alice) = Normal false
  ∧ Page.isFormValid (<[ "reviewerComments" := JString " ok " ]> alice) = Normal true.
Proof.
  split.
  - apply (isFormValid_visible_text _ "  	 "); reflexivity.
  - apply (isFormValid_visible_text _ " ok "); reflexivity.
Defined.

(** Comments that are missing or empty are not valid either. *)
Example isFormValid_missing :
  Page.isFormValid sarah = Normal false ∧ Page.isFormValid alice = Normal false.
Proof. split; reflexivity. Qed.

(** X18.  [getStatusIcon] and [getStatusColor] classify every status alike:
    the check mark goes with green, the warning sign with yellow or red, and
    the bullet with gray. *)
Theorem status_icon_matches_color (status : string) :
  (Page.getStatusIcon status = "✓"
   ↔ Page.getStatusColor status = "bg-green-100 text-green-800 border-green-200")
  ∧ (Page.getStatusIcon status = "•"
     ↔ Page.getStatusColor status = "bg-gray-100 text-gray-800 border-gray-200")
  ∧ (Page.getStatusIcon status = "⚠"
     ↔ Page.getStatusColor status = "bg-yellow-100 text-yellow-800 border-yellow-200"
       ∨ Page.getStatusColor status = "bg-red-100 text-red-800 border-red-200").
Proof.
  unfold Page.getStatusIcon, Page.getStatusColor.
  repeat case_bool_decide; intuition (auto; discriminate).
Qed.

Section EntitiesProperties.
Context {EntityGetResponse : Type}.
Implicit Types (s : Entities.State EntityGetResponse)
  (rs : list (Entities.Settlement EntityGetResponse))
  (evs : list (Entities.FetchEvent EntityGetResponse)).

Lemma entities_run_app evs1 evs2 s :
  Entities.run (evs1 ++ evs2) s = Entities.run evs2 (Entities.run evs1 s).
Proof. unfold Entities.run. apply fold_left_app. Qed.

Lemma entities_oneAfterAnother_cons (r : Entities.Settlement EntityGetResponse) rs s :
  Entities.run (Entities.oneAfterAnother (r :: rs)) s
  = Entities.run (Entities.oneAfterAnother rs)
      (Entities.step (Entities.step s Entities.Started) (Entities.Settled r)).
Proof. reflexivity. Qed.

Lemma entities_oneAfterAnother rs s :
  Entities.entities (Entities.run (Entities.oneAfterAnother rs) s)
  = Entities.lastFulfilled (Entities.entities s) rs.
Proof.
  revert s. induction rs as [| r rs IH]; intros s; [done |].
  rewrite entities_oneAfterAnother_cons, IH. by destruct r.
Qed.

Lemma entities_oneAfterAnother_snoc rs (r : Entities.Settlement EntityGetResponse) s :
  Entities.run (Entities.oneAfterAnother (rs ++ [r])) s
  = Entities.step (Entities.step (Entities.run (Entities.oneAfterAnother rs) s)
                     Entities.Started) (Entities.Settled r).
Proof.
  revert s. induction rs as [| r' rs IH]; intros s; [done |].
  change ((r' :: rs) ++ [r])%list with (r' :: (rs ++ [r]))%list.
  by rewrite !entities_oneAfterAnother_cons, IH.
Qed.

(** X19.  After fetches that do not overlap, the last one decides: loading
    is over, the error is that of the last fetch if it failed and is null if
    it was fulfilled, and the entities are those of the last fulfilled fetch,
    a failed fetch keeping what was loaded before. *)
Theorem entities_after_fetches rs (r : Entities.Settlement EntityGetResponse) :
  Entities.run (Entities.oneAfterAnother (rs ++ [r])) Entities.initial
  = {| Entities.entities := Entities.lastFulfilled [] (rs ++ [r]);
       Entities.loading := false;
       Entities.error := match r with
                         | Entities.Fulfilled _ => None
                         | Entities.Failed err => Some (Entities.messageOf err)
                         end |}.
Proof.
  pose proof (entities_oneAfterAnother (rs ++ [r]) Entities.initial) as Hent.
  rewrite entities_oneAfterAnother_snoc in *.
  destruct r as [response | err]; simpl in *; by rewrite <- Hent.
Qed.

(** X20.  Only the start of a fetch clears the error.  When fetches overlap,
    a failure followed by fulfilled fetches leaves the entities of the last
    of them together with the message of the failure, and loading is false
    whether or not another fetch is still under way. *)
Theorem entities_error_outlives_success s (err : Entities.Rejection)
    (responses : list (list EntityGetResponse)) :
  Entities.error
    (Entities.run (Entities.Settled (Entities.Failed err)
                   :: map (λ r, Entities.Settled (Entities.Fulfilled r)) responses) s)
  = Some (Entities.messageOf err)
  ∧ Entities.entities
      (Entities.run (Entities.Settled (Entities.Failed err)
                     :: map (λ r, Entities.Settled (Entities.Fulfilled r)) responses) s)
    = default (Entities.entities s) (last responses)
  ∧ Entities.loading
      (Entities.run (Entities.Settled (Entities.Failed err)
                     :: map (λ r, Entities.Settled (Entities.Fulfilled r)) responses) s)
    = false.
Proof.
  assert (Hgen : ∀ s', Entities.error s' = Some (Entities.messageOf err) →
            Entities.loading s' = false →
            Entities.error
              (Entities.run (map (λ r, Entities.Settled (Entities.Fulfilled r)) responses) s')
            = Some (Entities.messageOf err)
            ∧ Entities.entities
                (Entities.run (map (λ r, Entities.Settled (Entities.Fulfilled r)) responses) s')
              = default (Entities.entities s') (last responses)
            ∧ Entities.loading
                (Entities.run (map (λ r, Entities.Settled (Entities.Fulfilled r)) responses) s')
              = false).
  { induction responses as [| r responses IH]; intros s' He Hl; [done |].
    destruct (IH (Entities.step s' (Entities.Settled (Entities.Fulfilled r))) He eq_refl)
      as (IHe & IHn & IHl).
    change (Entities.run (map _ (r :: responses)) s')
      with (Entities.run (map (λ r, Entities.Settled (Entities.Fulfilled r)) responses)
              (Entities.step s' (Entities.Settled (Entities.Fulfilled r)))).
    rewrite IHe, IHn, IHl. split; [done |]. split; [| done].
    rewrite last_cons. by destruct (last responses). }
  apply (Hgen (Entities.step s (Entities.Settled (Entities.Failed err)))); done.
Qed.

End EntitiesProperties.
